(** * Near-Earth objects and their close approaches: [models.py]

    A shallow embedding of the two classes of [models.py],
    [NearEarthObject] and [CloseApproach], together with the fragment of
    the Python runtime their methods call: [str.upper], [str.__eq__],
    [float(str)], [float.__format__] with the [.Nf] presentation,
    [float.__repr__], [str.__repr__] and f-string concatenation.

    Python values are modelled as follows.
    - [str] is a sequence of Unicode code points, [list N].
    - [float] is an IEEE 754 binary64 value, [spec_float] at precision 53
      and maximal exponent 1024.
    - Objects live in a store indexed by references; [None] is [option]'s
      [None].
    - A call either returns a value and a store or raises an exception. *)

From Stdlib Require Import ZArith NArith List String Ascii Bool Lia Decimal.
From Stdlib Require Import SpecFloat.
From stdpp Require Import base tactics option list relations.

Local Open Scope N_scope.

(** ** Strings *)

Abbreviation codepoint := N (only parsing).
Abbreviation str := (list N) (only parsing).

(** An ASCII literal of the source, as a [str]. *)
Definition py (s : string) : str :=
  List.map N_of_ascii (list_ascii_of_string s).
Global Arguments py : simpl never.

(** [a == b] on two [str] operands. *)
Definition str_eq (a b : str) : bool := bool_decide (a = b).

(** Truth value of a [str] in a condition: the empty string is false. *)
Definition str_truth (s : str) : bool :=
  match s with [] => false | _ :: _ => true end.

(** The Unicode character database, as far as the runtime consults it for
    code points outside ASCII.  CPython treats code points below 128 by
    fixed rules, which are written out below; everything else comes from
    tables generated from the Unicode data files. *)
Class Unicode := {
  (** full upper-case mapping of a code point (one to three code points) *)
  ud_toupper : codepoint -> list codepoint;
  (** white space property *)
  ud_isspace : codepoint -> bool;
  (** value of a decimal digit, if the code point is one *)
  ud_todecimal : codepoint -> option N;
  (** printable property (used by [repr]) *)
  ud_isprintable : codepoint -> bool
}.

Definition is_ascii (c : codepoint) : bool := c <? 128.

Definition between (lo hi c : N) : bool := (lo <=? c) && (c <=? hi).

Definition ascii_toupper (c : codepoint) : codepoint :=
  if between 97 122 c then c - 32 else c.

Definition ascii_tolower (c : codepoint) : codepoint :=
  if between 65 90 c then c + 32 else c.

Section Upper.
Context `{Unicode}.

Definition toupper_full (c : codepoint) : list codepoint :=
  if is_ascii c then [ascii_toupper c] else ud_toupper c.

(** [s.upper()]: every code point is replaced by its full upper-case
    mapping, independently of its neighbours. *)
Definition str_upper (s : str) : str := flat_map toupper_full s.
End Upper.

(** ** Floating point numbers *)

(** A Python [float] is a binary64 value.  NaN carries no payload here:
    no operation of [models.py] observes one. *)
Abbreviation float := spec_float (only parsing).
Definition prec : Z := 53.
Definition emax : Z := 1024.

Definition nan : float := S754_nan.
Definition infinity (neg : bool) : float := S754_infinity neg.

(** [isnan x], the only test that recognises the result of [float('nan')]. *)
Definition isnan (x : float) : bool :=
  match x with S754_nan => true | _ => false end.

Definition isfinite (x : float) : bool :=
  match x with S754_zero _ | S754_finite _ _ _ => true | _ => false end.

(** [x == y] on floats: IEEE 754 comparison. *)
Definition float_eq (x y : float) : bool := SFeqb x y.

(** The binary64 value nearest to [(-1)^neg * m * 10^k], ties to even:
    what a correctly rounded decimal-to-binary conversion returns.  It
    overflows to an infinity and underflows to a signed zero. *)
Definition float_of_decimal (neg : bool) (m : N) (k : Z) : float :=
  match m with
  | N0 => S754_zero neg
  | Npos p =>
    if (0 <=? k)%Z
    then binary_round prec emax neg (p * Z.to_pos (10 ^ k)) 0
    else
      let '(q, e, l) :=
        SFdiv_core_binary prec emax (Zpos p) 0 (10 ^ (- k))%Z 0 in
      binary_round_aux prec emax neg q e l
  end.

(** *** [float(s)] for a [str] argument *)

Definition is_digit (c : codepoint) : bool := between 48 57 c.

(** C's [isspace] in the "C" locale, as CPython's [Py_ISSPACE]. *)
Definition ascii_isspace (c : codepoint) : bool :=
  between 9 13 c || (c =? 32).

Section FloatOfStr.
Context `{Unicode}.

Definition unicode_isspace (c : codepoint) : bool :=
  if is_ascii c then between 9 13 c || between 28 32 c else ud_isspace c.

Definition unicode_todecimal (c : codepoint) : option N :=
  if is_ascii c then (if is_digit c then Some (c - 48) else None)
  else ud_todecimal c.

(** The pass that maps Unicode white space to a blank and Unicode
    decimal digits to ASCII digits; it stops with a question mark at
    the first code point that is neither. *)
Fixpoint decimal_and_space_to_ascii (s : str) : str :=
  match s with
  | [] => []
  | c :: s' =>
    if c <? 127 then c :: decimal_and_space_to_ascii s'
    else if unicode_isspace c then 32 :: decimal_and_space_to_ascii s'
    else match unicode_todecimal c with
         | Some d => (48 + d) :: decimal_and_space_to_ascii s'
         | None => [63]
         end
  end.

(** An ASCII string is returned as it is. *)
Definition transform_decimal_and_space_to_ascii (s : str) : str :=
  if forallb is_ascii s then s else decimal_and_space_to_ascii s.
End FloatOfStr.

(** Underscores may group digits: each must stand between two digits.
    [prev] is the code point before [s]. *)
Fixpoint strip_underscores (prev : codepoint) (s : str) : option str :=
  match s with
  | [] => if prev =? 95 then None else Some []
  | c :: s' =>
    if c =? 95 then
      if is_digit prev then strip_underscores c s' else None
    else if (prev =? 95) && negb (is_digit c) then None
    else cons c <$> strip_underscores c s'
  end.

Definition remove_underscores (s : str) : option str :=
  if existsb (N.eqb 95) s then strip_underscores 0 s else Some s.

Fixpoint lstrip (s : str) : str :=
  match s with
  | c :: s' => if ascii_isspace c then lstrip s' else s
  | [] => []
  end.

Definition strip (s : str) : str := rev (lstrip (rev (lstrip s))).

(** An optional sign: [true] for a minus. *)
Definition take_sign (s : str) : bool * str :=
  match s with
  | 45 :: r => (true, r)
  | 43 :: r => (false, r)
  | _ => (false, s)
  end.

(** The longest prefix of ASCII digits, as digit values, and the rest. *)
Fixpoint take_digits (s : str) : list N * str :=
  match s with
  | c :: r =>
    if is_digit c
    then let '(ds, t) := take_digits r in ((c - 48) :: ds, t)
    else ([], s)
  | [] => ([], [])
  end.

Definition digits_value (ds : list N) : N :=
  fold_left (fun a d => 10 * a + d) ds 0.

(** The exponent part: nothing, or [e] or [E], an optional sign and at
    least one digit, up to the end of the string. *)
Definition parse_exponent (s : str) : option Z :=
  match s with
  | [] => Some 0%Z
  | c :: r =>
    if (c =? 101) || (c =? 69) then
      let '(neg, r1) := take_sign r in
      match take_digits r1 with
      | (d :: ds, []) =>
        let v := Z.of_N (digits_value (d :: ds)) in
        Some (if neg then (- v)%Z else v)
      | _ => None
      end
    else None
  end.

(** A decimal number without sign: digits with an optional point, at
    least one digit in all, and an optional exponent. *)
Definition parse_number (neg : bool) (s : str) : option float :=
  let '(ip, r1) := take_digits s in
  let '(fp, r2) :=
    match r1 with
    | 46 :: r => take_digits r
    | _ => ([], r1)
    end in
  match ip ++ fp with
  | [] => None
  | ds =>
    e ← parse_exponent r2;
    Some (float_of_decimal neg (digits_value ds) (e - Z.of_nat (length fp)))
  end.

(** [inf], [infinity] and [nan], in any case. *)
Definition parse_inf_or_nan (neg : bool) (s : str) : option float :=
  let low := ascii_tolower <$> s in
  if str_eq low (py "inf") || str_eq low (py "infinity")
  then Some (infinity neg)
  else if str_eq low (py "nan") then Some nan
  else None.

(** A string without surrounding blanks to a double. *)
Definition string_to_double (s : str) : option float :=
  let '(neg, r) := take_sign s in
  match parse_number neg r with
  | Some x => Some x
  | None => parse_inf_or_nan neg r
  end.

Section FloatFromString.
Context `{Unicode}.

(** [float(s)]: [None] stands for the [ValueError] "could not convert
    string to float".  A NUL code point is rejected by the grammar, as
    it is on every path of the C code. *)
Definition float_from_string (s : str) : option float :=
  s1 ← remove_underscores (transform_decimal_and_space_to_ascii s);
  string_to_double (strip s1).
End FloatFromString.

(** A database that knows the Latin-1 supplement (code points 128 to 255)
    and treats everything beyond as uncased, non-blank, non-digit and
    unprintable.  It serves to run the model on concrete inputs. *)
Definition latin1 : Unicode := {|
  ud_toupper c :=
    if c =? 181 then [924]
    else if c =? 223 then [83; 83]
    else if c =? 255 then [376]
    else if between 224 254 c && negb (c =? 247) then [c - 32]
    else [c];
  ud_isspace c := (c =? 133) || (c =? 160);
  ud_todecimal c := None;
  ud_isprintable c := between 161 255 c && negb (c =? 173)
|}.

(** ** Text of numbers *)

Fixpoint uint_codes (d : Decimal.uint) : str :=
  match d with
  | Nil => []
  | D0 d => 48 :: uint_codes d
  | D1 d => 49 :: uint_codes d
  | D2 d => 50 :: uint_codes d
  | D3 d => 51 :: uint_codes d
  | D4 d => 52 :: uint_codes d
  | D5 d => 53 :: uint_codes d
  | D6 d => 54 :: uint_codes d
  | D7 d => 55 :: uint_codes d
  | D8 d => 56 :: uint_codes d
  | D9 d => 57 :: uint_codes d
  end.

(** The decimal digits of a natural number, without leading zeros. *)
Definition str_of_N (n : N) : str := uint_codes (N.to_uint n).

Definition zeros (k : nat) : str := repeat 48 k.

Definition sign_str (neg : bool) : str := if neg then [45] else [].

(** The integer [a / d] rounded to nearest, ties to even. *)
Definition div_nearest_even (a d : N) : N :=
  let q := a / d in
  match 2 * (a mod d) ?= d with
  | Lt => q
  | Gt => q + 1
  | Eq => if N.even q then q else q + 1
  end.

(** The finite positive value [m * 2^e] as a fraction. *)
Definition fraction (m : positive) (e : Z) : N * N :=
  if (0 <=? e)%Z then (Npos m * 2 ^ Z.to_N e, 1)
  else (Npos m, 2 ^ Z.to_N (- e)).

(** *** [format(x, '.<p>f')] *)

(** [n] written with [p] digits after the point, [n] counting units of
    [10^-p]. *)
Definition fixed_digits (n : N) (p : nat) : str :=
  let ds := str_of_N n in
  let ds := zeros (S p - length ds) ++ ds in
  let k := (length ds - p)%nat in
  take k ds ++ match p with O => [] | S _ => 46 :: drop k ds end.

(** Fixed-point presentation with [p] digits after the point: the value
    is rounded correctly (ties to even on its exact binary value); a NaN
    and the infinities have no digits at all. *)
Definition format_fixed (p : nat) (x : float) : str :=
  match x with
  | S754_nan => py "nan"
  | S754_infinity s => sign_str s ++ py "inf"
  | S754_zero s => sign_str s ++ fixed_digits 0 p
  | S754_finite s m e =>
    let '(num, den) := fraction m e in
    sign_str s ++ fixed_digits (div_nearest_even (num * 10 ^ N.of_nat p) den) p
  end.

(** *** [repr(x)]: the shortest text that reads back as [x] *)

Definition nb_digits (n : N) : Z := Z.of_nat (Decimal.nb_digits (N.to_uint n)).

(** The decimal exponent [E] of [num / den > 0]:
    [10^E <= num / den < 10^(E+1)]. *)
Definition log10_floor (num den : N) : Z :=
  if den <=? num then (nb_digits (num / den) - 1)%Z
  else (- nb_digits ((den + num - 1) / num - 1))%Z.

(** Looks for the least number [n] of significant digits, from [n] on, such
    that a decimal of [n] digits reads back as [x = num / den]; of two such
    decimals the nearer to [x] is taken, ties to even.  Seventeen digits
    always suffice.  The result [(c, q)] stands for [c * 10^-q]. *)
Fixpoint shortest_decimal (fuel : nat) (n : Z) (x : float) (num den : N)
    (E : Z) : N * Z :=
  let q := (n - 1 - E)%Z in
  let yn := if (0 <=? q)%Z then num * 10 ^ Z.to_N q else num in
  let yd := if (0 <=? q)%Z then den else den * 10 ^ Z.to_N (- q) in
  let lo := yn / yd in
  let nearest := div_nearest_even yn yd in
  match fuel with
  | O => (nearest, q)
  | S fuel' =>
    let ok_lo := float_eq (float_of_decimal false lo (- q)) x in
    let ok_hi := float_eq (float_of_decimal false (lo + 1) (- q)) x in
    if ok_lo && ok_hi then (nearest, q)
    else if ok_lo then (lo, q)
    else if ok_hi then (lo + 1, q)
    else shortest_decimal fuel' (n + 1)%Z x num den E
  end.

Fixpoint strip_trailing_zeros (rev_ds : str) : str :=
  match rev_ds with
  | 48 :: r => strip_trailing_zeros r
  | _ => rev_ds
  end.

(** Digits [ds] with the decimal point after the first [decpt] of them,
    laid out as [repr] does: exponent notation when [decpt] is below -3 or
    above 16, otherwise positional with at least one digit after the
    point. *)
Definition repr_layout (ds : str) (decpt : Z) : str :=
  if (decpt <=? -4)%Z || (16 <? decpt)%Z then
    let e := (decpt - 1)%Z in
    let es := str_of_N (Z.abs_N e) in
    take 1 ds ++ match drop 1 ds with [] => [] | t => 46 :: t end
      ++ [101] ++ (if (e <? 0)%Z then [45] else [43])
      ++ zeros (2 - length es) ++ es
  else if (decpt <=? 0)%Z then
    py "0." ++ zeros (Z.to_nat (- decpt)) ++ ds
  else if (Z.of_nat (length ds) <=? decpt)%Z then
    ds ++ zeros (Z.to_nat decpt - length ds) ++ py ".0"
  else
    take (Z.to_nat decpt) ds ++ [46] ++ drop (Z.to_nat decpt) ds.

(** [repr(x)], which is also [str(x)] and [format(x, '')]. *)
Definition float_repr (x : float) : str :=
  match x with
  | S754_nan => py "nan"
  | S754_infinity s => sign_str s ++ py "inf"
  | S754_zero s => sign_str s ++ py "0.0"
  | S754_finite s m e =>
    let '(num, den) := fraction m e in
    let '(c, q) :=
      shortest_decimal 16 1 (S754_finite false m e) num den
        (log10_floor num den) in
    sign_str s
      ++ repr_layout (rev (strip_trailing_zeros (rev (str_of_N c))))
           (nb_digits c - q)
  end.

(** ** [repr] of strings, booleans and [None] *)

Definition hex_digit (d : N) : codepoint :=
  if d <? 10 then 48 + d else 87 + d.

Fixpoint hex_digits (width : nat) (n : N) : str :=
  match width with
  | O => []
  | S w => hex_digits w (n / 16) ++ [hex_digit (n mod 16)]
  end.

Section StrRepr.
Context `{Unicode}.

Definition repr_char (quote c : codepoint) : str :=
  if (c =? quote) || (c =? 92) then [92; c]
  else if c =? 9 then [92; 116]
  else if c =? 10 then [92; 110]
  else if c =? 13 then [92; 114]
  else if (c <? 32) || (c =? 127) then 92 :: 120 :: hex_digits 2 c
  else if c <? 127 then [c]
  else if ud_isprintable c then [c]
  else if c <=? 255 then 92 :: 120 :: hex_digits 2 c
  else if c <=? 65535 then 92 :: 117 :: hex_digits 4 c
  else 92 :: 85 :: hex_digits 8 c.

(** [repr(s)]: single quotes, unless [s] has a single quote and no
    double quote. *)
Definition str_repr (s : str) : str :=
  let quote :=
    if existsb (N.eqb 39) s && negb (existsb (N.eqb 34) s)
    then 34 else 39 in
  quote :: flat_map (repr_char quote) s ++ [quote].
End StrRepr.

Definition bool_repr (b : bool) : str :=
  if b then py "True" else py "False".

Definition None_repr : str := py "None".

(** ** Exceptions *)

(** An exception, identified by the name of its class. *)
Record exception := Exception { exc_class : string }.

(** The built-in class raised by [float] on a malformed string. *)
Definition ValueError : exception := Exception "ValueError".

(** Raised on access to an attribute that an object does not have. *)
Definition AttributeError : exception := Exception "AttributeError".

(** ** The helper module *)

(** [models.py] imports [cd_to_datetime] and [datetime_to_str] from the
    module [helpers].  The classes use them as black boxes: a parser from
    text to a date-time value, which may raise, and a formatter from a
    date-time value to text. *)
Class Helpers := {
  datetime : Type;
  cd_to_datetime : str -> exception + datetime;
  datetime_to_str : datetime -> str
}.

(** ** Objects and the store *)

(** A reference is the address of an object in the store. *)
Abbreviation ref := nat (only parsing).

Section Models.
Context `{Unicode} `{Helpers}.

(** The attributes of an instance of [NearEarthObject]. *)
Record NearEarthObject := {
  designation : str;
  hazardous : bool;
  diameter : float;
  name : option str;
  approaches : list ref
}.

(** The attributes of an instance of [CloseApproach]. *)
Record CloseApproach := {
  _designation : str;
  time : datetime;
  distance : float;
  velocity : float;
  neo : option ref
}.

Inductive object :=
| NEO (o : NearEarthObject)
| Approach (a : CloseApproach).

(** The store is the list of all objects made so far.  Objects are never
    freed: a new object gets the next address. *)
Abbreviation store := (list object).

(** What a call does: it returns a value and a store, or raises.  An
    exception leaves nothing of the call behind: what a failed constructor
    has set on its new object is out of reach of the caller. *)
Inductive outcome (A : Type) :=
| Return (a : A) (σ : store)
| Raise (e : exception).
Global Arguments Return {A} a σ.
Global Arguments Raise {A} e.

Definition Py (A : Type) : Type := store -> outcome A.

Global Instance Py_ret : MRet Py := fun A a σ => Return a σ.
Global Instance Py_bind : MBind Py := fun A B f c σ =>
  match c σ with
  | Return a σ' => f a σ'
  | Raise e => Raise e
  end.

Definition raise {A} (e : exception) : Py A := fun _ => Raise e.

(** Creation of an object with the given attributes. *)
Definition alloc (obj : object) : Py ref :=
  fun σ => Return (length σ) (σ ++ [obj]).

(** Access to the attributes of [self], for a method of each class. *)
Definition self_neo (self : ref) : Py NearEarthObject := fun σ =>
  match σ !! self with
  | Some (NEO o) => Return o σ
  | _ => Raise AttributeError
  end.

Definition self_approach (self : ref) : Py CloseApproach := fun σ =>
  match σ !! self with
  | Some (Approach a) => Return a σ
  | _ => Raise AttributeError
  end.

(** The built-in [float] applied to a [str]. *)
Definition builtin_float (s : str) : Py float :=
  match float_from_string s with
  | Some x => mret x
  | None => raise ValueError
  end.

(** The helper [cd_to_datetime], with its exception propagated. *)
Definition call_cd_to_datetime (s : str) : Py datetime :=
  match cd_to_datetime s with
  | inr t => mret t
  | inl e => raise e
  end.

(** *** class [NearEarthObject] *)

Definition NearEarthObject__init__
    (designation hazardous diameter name : str) : Py ref :=
  let hazardous :=
    if str_eq (str_upper hazardous) (py "Y") then true else false in
  diameter ←
    (if str_eq diameter (py "") then builtin_float (py "nan")
     else builtin_float diameter);
  let name := if str_eq name (py "") then None else Some name in
  alloc (NEO {| designation := designation; hazardous := hazardous;
                diameter := diameter; name := name; approaches := [] |}).

(** Truth value of the attribute [name]: [None] and the empty string are
    false. *)
Definition name_truth (n : option str) : bool :=
  match n with Some s => str_truth s | None => false end.

Definition name_text (n : option str) : str := default (py "None") n.

Definition NearEarthObject_fullname (self : ref) : Py str :=
  o ← self_neo self;
  if name_truth (name o)
  then mret (designation o ++ py " (" ++ name_text (name o) ++ py ")")
  else mret (designation o).

Definition NearEarthObject__str__ (self : ref) : Py str :=
  o ← self_neo self;
  if hazardous o then
    fullname ← NearEarthObject_fullname self;
    mret (fullname ++ py " has a diameter of " ++ float_repr (diameter o)
            ++ py " km and is potentially hazardous.")
  else
    fullname ← NearEarthObject_fullname self;
    mret (fullname ++ py " has a diameter of " ++ float_repr (diameter o)
            ++ py " km and is not potentially hazardous.").

Definition name_repr (n : option str) : str :=
  match n with Some s => str_repr s | None => None_repr end.

Definition NearEarthObject__repr__ (self : ref) : Py str :=
  o ← self_neo self;
  mret (py "NearEarthObject(designation=" ++ str_repr (designation o)
          ++ py ", name=" ++ name_repr (name o)
          ++ py ", diameter=" ++ format_fixed 3 (diameter o)
          ++ py ", hazardous=" ++ bool_repr (hazardous o) ++ py ")").

(** *** class [CloseApproach] *)

Definition CloseApproach__init__
    (time distance velocity designation : str) : Py ref :=
  time ← call_cd_to_datetime time;
  distance ← builtin_float distance;
  velocity ← builtin_float velocity;
  alloc (Approach {| _designation := designation; time := time;
                     distance := distance; velocity := velocity;
                     neo := None |}).

Definition CloseApproach_time_str (self : ref) : Py str :=
  a ← self_approach self;
  mret (datetime_to_str (time a)).

Definition CloseApproach__str__ (self : ref) : Py str :=
  a ← self_approach self;
  time_str ← CloseApproach_time_str self;
  mret (py "On " ++ time_str ++ py " " ++ _designation a
          ++ py " approaches Earth at a distance of "
          ++ float_repr (distance a)
          ++ py " au and a velocity of " ++ float_repr (velocity a)
          ++ py " km/s.").

(** [repr(self.neo)]: the text of [None], or the [__repr__] of the
    linked object. *)
Definition neo_repr (n : option ref) : Py str :=
  match n with
  | None => mret None_repr
  | Some r => NearEarthObject__repr__ r
  end.

Definition CloseApproach__repr__ (self : ref) : Py str :=
  a ← self_approach self;
  time_str ← CloseApproach_time_str self;
  neo ← neo_repr (neo a);
  mret (py "CloseApproach(time=" ++ str_repr time_str
          ++ py ", distance=" ++ format_fixed 2 (distance a)
          ++ py ", velocity=" ++ format_fixed 2 (velocity a)
          ++ py ", neo=" ++ neo ++ py ")").
End Models.

Abbreviation store := (list object).

(** ** Linking, and the stores a program can reach *)

Section Linking.
Context `{Unicode} `{Helpers}.

(** The attributes [ca] with [neo] set to [n]. *)
Definition with_neo (ca : CloseApproach) (n : option ref) : CloseApproach :=
  {| _designation := _designation ca; time := time ca;
     distance := distance ca; velocity := velocity ca; neo := n |}.

(** The attributes [o] with [a] appended to [approaches]. *)
Definition with_approach (o : NearEarthObject) (a : ref) : NearEarthObject :=
  {| designation := designation o; hazardous := hazardous o;
     diameter := diameter o; name := name o;
     approaches := approaches o ++ [a] |}.

(** The assignment [approach.neo = neo]. *)
Definition set_neo (a n : ref) : Py unit := fun σ =>
  match σ !! a with
  | Some (Approach ca) => Return tt (<[a := Approach (with_neo ca (Some n))]> σ)
  | _ => Raise AttributeError
  end.

(** The call [neo.approaches.append(approach)]. *)
Definition append_approach (n a : ref) : Py unit := fun σ =>
  match σ !! n with
  | Some (NEO o) => Return tt (<[n := NEO (with_approach o a)]> σ)
  | _ => Raise AttributeError
  end.

(** Modelled from the spec: the linking step of the database component,
    which is not part of [models.py].  Section 6 of the specification
    says that it sets the approach's [neo] reference and appends the
    approach to the collection of that NEO.  Which NEO an approach is
    paired with is left open here, so that pairing by designation is one
    of the cases. *)
Definition link (a n : ref) : Py unit :=
  _ ← set_neo a n; append_approach n a.

(** One step of a program over the two classes: a construction that
    succeeds, or a linking. *)
Inductive step : store -> store -> Prop :=
| step_neo designation hazardous diameter name r σ σ' :
    NearEarthObject__init__ designation hazardous diameter name σ
      = Return r σ' ->
    step σ σ'
| step_approach time distance velocity designation r σ σ' :
    CloseApproach__init__ time distance velocity designation σ
      = Return r σ' ->
    step σ σ'
| step_link a n σ σ' :
    link a n σ = Return tt σ' ->
    step σ σ'.

(** The stores reached from the empty one. *)
Definition reachable (σ : store) : Prop := rtc step [] σ.

(** The object a constructor call has made, if it returned. *)
Definition constructed (out : outcome ref) : option object :=
  match out with
  | Return r σ => σ !! r
  | Raise _ => None
  end.
End Linking.

(** ** A sample helper module *)

Record sample_datetime := {
  dt_year : N; dt_month : N; dt_day : N; dt_hour : N; dt_minute : N
}.

Definition month_names : list str :=
  [py "Jan"; py "Feb"; py "Mar"; py "Apr"; py "May"; py "Jun";
   py "Jul"; py "Aug"; py "Sep"; py "Oct"; py "Nov"; py "Dec"].

(** The number written by [s], when [s] is made of [n] ASCII digits. *)
Definition fixed_width_number (n : nat) (s : str) : option N :=
  if (length s =? n)%nat && forallb is_digit s
  then Some (digits_value ((fun c => c - 48) <$> s))
  else None.

(** The position of [s] in [names], counted from one. *)
Fixpoint index_of (s : str) (names : list str) (i : N) : option N :=
  match names with
  | [] => None
  | n :: rest => if str_eq s n then Some i else index_of s rest (i + 1)
  end.

Definition sample_cd_to_datetime (s : str) : exception + sample_datetime :=
  let field (from len : nat) := take len (drop from s) in
  match fixed_width_number 4 (field 0 4)%nat,
        index_of (field 5 3)%nat month_names 1,
        fixed_width_number 2 (field 9 2)%nat,
        fixed_width_number 2 (field 12 2)%nat,
        fixed_width_number 2 (field 15 2)%nat with
  | Some y, Some m, Some d, Some hh, Some mm =>
    if str_eq (field 4 1)%nat (py "-") && str_eq (field 8 1)%nat (py "-")
       && str_eq (field 11 1)%nat (py " ") && str_eq (field 14 1)%nat (py ":")
       && (length s =? 17)%nat
       && between 1 31 d && (hh <? 24) && (mm <? 60)
    then inr {| dt_year := y; dt_month := m; dt_day := d;
                dt_hour := hh; dt_minute := mm |}
    else inl ValueError
  | _, _, _, _, _ => inl ValueError
  end.

(** [n] in at least [w] digits, padded with zeros. *)
Definition padded (w : nat) (n : N) : str :=
  let ds := str_of_N n in zeros (w - length ds) ++ ds.

Definition sample_datetime_to_str (t : sample_datetime) : str :=
  padded 4 (dt_year t) ++ py "-" ++ padded 2 (dt_month t) ++ py "-"
    ++ padded 2 (dt_day t) ++ py " " ++ padded 2 (dt_hour t) ++ py ":"
    ++ padded 2 (dt_minute t).

(** Modelled from the spec: the module [helpers] is not part of
    [models.py].  Section 6 of the specification describes a parser of a
    compact date-time text that has no seconds and fails on malformed
    input, and a formatter to a display text without seconds; section 8
    gives the input [1900-Jan-01 00:00].  This pair reads year, month
    name, day, hour and minute and writes them back in numbers.  The
    theorems below hold for every pair of helpers; this one serves to run
    the model on concrete inputs. *)
Definition sample_helpers : Helpers := {|
  datetime := sample_datetime;
  cd_to_datetime := sample_cd_to_datetime;
  datetime_to_str := sample_datetime_to_str
|}.

(** What the claim about the hazard flag needs from the Unicode tables:
    no code point outside ASCII has an empty upper-case mapping, and none
    is mapped to the single letter Y.  (In Unicode, U+1E99 comes closest:
    it is mapped to Y followed by a combining ring.) *)
Class UpperCaseOfY `{Unicode} : Prop :=
  toupper_not_Y : forall c,
    is_ascii c = false -> ud_toupper c <> [] /\ ud_toupper c <> [89].

(** ** Notions used to state the properties *)

(** The error class that the specification names for a malformed number.
    [models.py] defines no class of this name. *)
Definition InvalidMeasurement : exception := Exception "InvalidMeasurement".

(** [s] is a number with exactly [p] digits after the point: an optional
    minus, at least one digit, a point, and [p] digits. *)
Definition has_decimals (p : nat) (s : str) : bool :=
  let body :=
    match s with
    | c :: r => if c =? 45 then r else s
    | [] => s
    end in
  match take_digits body with
  | (_ :: _, c :: frac) =>
    (c =? 46) && (length frac =? p)%nat && forallb is_digit frac
  | _ => false
  end.

(** What the presentation [.<p>f] gives for [x]: a number with exactly [p]
    digits after the point when [x] is finite, and one of the words
    [nan], [inf] and [-inf] when it is not. *)
Definition fixed_or_word (p : nat) (x : float) : Prop :=
  if isfinite x then has_decimals p (format_fixed p x) = true
  else format_fixed p x = py "nan" \/ format_fixed p x = py "inf"
       \/ format_fixed p x = py "-inf".

Section Observations.
Context `{Unicode} `{Helpers}.

(** The value a call returns, if it returns. *)
Definition returned {A} (out : outcome A) : option A :=
  match out with
  | Return a _ => Some a
  | Raise _ => None
  end.

(** The call [c] made [k] more times after a first one; the result is
    that of the last call. *)
Fixpoint again {A} (k : nat) (c : Py A) : Py A :=
  match k with
  | O => c
  | S k' => _ ← c; again k' c
  end.

(** The text that [NearEarthObject.__repr__] gives for the attributes
    [o]. *)
Definition NearEarthObject_repr_text (o : NearEarthObject) : str :=
  py "NearEarthObject(designation=" ++ str_repr (designation o)
    ++ py ", name=" ++ name_repr (name o)
    ++ py ", diameter=" ++ format_fixed 3 (diameter o)
    ++ py ", hazardous=" ++ bool_repr (hazardous o) ++ py ")".

(** The invariant of the stores a program reaches: the name of an NEO is
    absent or non-empty, and the link of an approach leads to an NEO. *)
Definition well_formed (σ : store) : Prop :=
  (forall r o, σ !! r = Some (NEO o) -> name o <> Some [])
  /\ (forall r a n, σ !! r = Some (Approach a) -> neo a = Some n ->
      exists o, σ !! n = Some (NEO o)).
End Observations.

(** ** The texts of the methods *)

(** [s] is made of ASCII blanks only (the empty string included). *)
Definition is_blank (s : str) : bool := forallb ascii_isspace s.

Section Texts.
Context `{Unicode} `{Helpers}.

(** The text that [fullname] gives for the attributes [o]. *)
Definition NearEarthObject_fullname_text (o : NearEarthObject) : str :=
  if name_truth (name o)
  then designation o ++ py " (" ++ name_text (name o) ++ py ")"
  else designation o.

(** The text that [NearEarthObject.__str__] gives for [o]. *)
Definition NearEarthObject_str_text (o : NearEarthObject) : str :=
  NearEarthObject_fullname_text o ++ py " has a diameter of "
    ++ float_repr (diameter o)
    ++ (if hazardous o then py " km and is potentially hazardous."
        else py " km and is not potentially hazardous.").

(** The text that [CloseApproach.__str__] gives for [a]. *)
Definition CloseApproach_str_text (a : CloseApproach) : str :=
  py "On " ++ datetime_to_str (time a) ++ py " " ++ _designation a
    ++ py " approaches Earth at a distance of " ++ float_repr (distance a)
    ++ py " au and a velocity of " ++ float_repr (velocity a) ++ py " km/s.".

(** The text that [CloseApproach.__repr__] gives for [a], around the
    text of its [neo]. *)
Definition CloseApproach_repr_text (a : CloseApproach) (neo_text : str)
    : str :=
  py "CloseApproach(time=" ++ str_repr (datetime_to_str (time a))
    ++ py ", distance=" ++ format_fixed 2 (distance a)
    ++ py ", velocity=" ++ format_fixed 2 (velocity a)
    ++ py ", neo=" ++ neo_text ++ py ")".

(** [σ'] is [σ] after a constructor call that returned. *)
Definition constructs (σ σ' : store) : Prop :=
  (exists des flag dia nm r,
     NearEarthObject__init__ des flag dia nm σ = Return r σ')
  \/ (exists t dist vel des r,
        CloseApproach__init__ t dist vel des σ = Return r σ').
End Texts.

(** ** Sample objects *)

(** The number that [float] reads from [16.84], from [0.092] and from
    [13.67]. *)
Definition float_16_84 : float := S754_finite false 4740038607807447 (-48).
Definition float_0_092 : float := S754_finite false 6629298651489370 (-56).
Definition float_13_67 : float := S754_finite false 7695525863269335 (-49).

(** The NEO made from the texts [433], [y], [16.84] and [Eros], with the
    approaches [l]. *)
Definition eros (l : list ref) : NearEarthObject :=
  {| designation := py "433"; hazardous := true; diameter := float_16_84;
     name := Some (py "Eros"); approaches := l |}.

(** The approach made from the texts [1900-Jan-01 00:00], a distance, a
    velocity and [2015 AB], with the link [n]. *)
Definition approach_1900 (d v : float) (n : option ref)
    : @CloseApproach sample_helpers :=
  @Build_CloseApproach sample_helpers (py "2015 AB")
    {| dt_year := 1900; dt_month := 1; dt_day := 1;
       dt_hour := 0; dt_minute := 0 |}
    d v n.

(** The store after the construction of the NEO, and after that of the
    approach. *)
Definition eros_store : list (@object sample_helpers) := [NEO (eros [])].

Definition unlinked_store : list (@object sample_helpers) :=
  [NEO (eros []); Approach (approach_1900 float_0_092 float_13_67 None)].

(** A store with one NEO and one approach, linked to each other. *)
Definition linked_store : list (@object sample_helpers) :=
  [NEO (eros [1%nat]);
   Approach (approach_1900 float_0_092 float_13_67 (Some 0%nat))].

(** * Properties *)

(** ** The runtime fragment *)

Lemma str_eq_true (a b : str) : str_eq a b = true <-> a = b.
Proof. unfold str_eq. apply bool_decide_eq_true. Qed.

Lemma str_eq_false (a b : str) : str_eq a b = false <-> a <> b.
Proof. unfold str_eq. apply bool_decide_eq_false. Qed.

Lemma str_eq_empty (s : str) : str_eq s (py "") = true <-> s = [].
Proof. apply str_eq_true. Qed.

Lemma latin1_UpperCaseOfY : @UpperCaseOfY latin1.
Proof.
  intros c Hc. unfold is_ascii in Hc. apply N.ltb_ge in Hc. cbn.
  destruct (c =? 181); [split; discriminate|].
  destruct (c =? 223); [split; discriminate|].
  destruct (c =? 255); [split; discriminate|].
  destruct (between 224 254 c && negb (c =? 247)) eqn:E.
  - apply andb_true_iff in E as [E _]. unfold between in E.
    apply andb_true_iff in E as [E _]. apply N.leb_le in E.
    split; [discriminate|]. intros [= Hx]. lia.
  - split; [discriminate|]. intros [= ->]. lia.
Qed.

Section UpperFacts.
Context `{Unicode} {HY : UpperCaseOfY}.

Lemma ascii_toupper_Y c : ascii_toupper c = 89 -> c = 89 \/ c = 121.
Proof.
  unfold ascii_toupper, between.
  destruct (97 <=? c) eqn:H1; destruct (c <=? 122) eqn:H2; cbn;
    try (intros ->; now left).
  apply N.leb_le in H1, H2. intros. right. lia.
Qed.

Lemma toupper_full_nonempty c : toupper_full c <> [].
Proof.
  unfold toupper_full. destruct (is_ascii c) eqn:Hc; [discriminate|].
  apply (toupper_not_Y c Hc).
Qed.

Lemma toupper_full_Y c : toupper_full c = [89] -> c = 89 \/ c = 121.
Proof.
  unfold toupper_full. destruct (is_ascii c) eqn:Hc.
  - intros [= Hu]. now apply ascii_toupper_Y.
  - intros Hu. now destruct (toupper_not_Y c Hc).
Qed.

Lemma str_upper_nil s : str_upper s = [] -> s = [].
Proof.
  destruct s as [|c s]; [done|]. cbn. intros Hs.
  apply app_eq_nil in Hs as [Hc _]. now apply toupper_full_nonempty in Hc.
Qed.

(** [s.upper() == 'Y'] holds for the two strings [Y] and [y] only. *)
Lemma str_upper_Y s :
  str_upper s = py "Y" <-> s = py "Y" \/ s = py "y".
Proof.
  split.
  - destruct s as [|c s]; [discriminate|]. cbn. intros Hs.
    destruct (toupper_full c) as [|u us] eqn:Hc;
      [now apply toupper_full_nonempty in Hc|].
    cbn in Hs. injection Hs as -> Hrest.
    apply app_eq_nil in Hrest as [-> Hs]. apply str_upper_nil in Hs as ->.
    destruct (toupper_full_Y c Hc) as [-> | ->]; [now left | now right].
  - intros [-> | ->]; reflexivity.
Qed.
End UpperFacts.

Section FloatFacts.
Context `{Unicode}.

(** The literal of the source, [float('nan')], is a NaN. *)
Lemma float_from_string_nan : float_from_string (py "nan") = Some nan.
Proof. reflexivity. Qed.

Lemma float_from_string_zero :
  float_from_string (py "0") = Some (S754_zero false).
Proof. reflexivity. Qed.

(** A NaN is equal to nothing, itself included. *)
Lemma float_eq_nan y : float_eq nan y = false.
Proof. reflexivity. Qed.
End FloatFacts.

(** On ASCII text the runtime does not consult the Unicode tables: the
    model gives the same result with any two of them. *)
Lemma float_from_string_ascii (U1 U2 : Unicode) (s : str) :
  forallb is_ascii s = true ->
  @float_from_string U1 s = @float_from_string U2 s.
Proof.
  intros Hs. unfold float_from_string, transform_decimal_and_space_to_ascii.
  now rewrite Hs.
Qed.

Lemma str_upper_ascii (U1 U2 : Unicode) (s : str) :
  forallb is_ascii s = true -> @str_upper U1 s = @str_upper U2 s.
Proof.
  unfold str_upper. induction s as [|c s IH]; [reflexivity|].
  cbn [flat_map forallb]. intros Hs. apply andb_true_iff in Hs as [Hc Hs].
  rewrite (IH Hs). unfold toupper_full. now rewrite Hc.
Qed.

(** ** Construction *)

Section Construction.
Context `{Unicode} `{Helpers}.

(** A constructor call of [NearEarthObject] in one equation: it raises
    [ValueError] when [float] does, and otherwise adds one object. *)
Lemma NearEarthObject__init__eq des flag dia nm σ :
  NearEarthObject__init__ des flag dia nm σ =
    match (if str_eq dia (py "") then Some nan else float_from_string dia) with
    | Some x =>
      Return (length σ)
        (σ ++ [NEO {| designation := des;
                      hazardous := str_eq (str_upper flag) (py "Y");
                      diameter := x;
                      name := if str_eq nm (py "") then None else Some nm;
                      approaches := [] |}])
    | None => Raise ValueError
    end.
Proof.
  unfold NearEarthObject__init__, mbind, Py_bind, builtin_float.
  destruct (str_eq dia (py "")).
  - rewrite float_from_string_nan.
    now destruct (str_eq (str_upper flag) (py "Y")).
  - destruct (float_from_string dia); [|reflexivity].
    now destruct (str_eq (str_upper flag) (py "Y")).
Qed.

(** The same for [CloseApproach]: the time is parsed first, then the
    distance, then the velocity; the first failure is the one raised. *)
Lemma CloseApproach__init__eq t dist vel des σ :
  CloseApproach__init__ t dist vel des σ =
    match cd_to_datetime t with
    | inl e => Raise e
    | inr tm =>
      match float_from_string dist, float_from_string vel with
      | Some d, Some v =>
        Return (length σ)
          (σ ++ [Approach {| _designation := des; time := tm; distance := d;
                             velocity := v; neo := None |}])
      | _, _ => Raise ValueError
      end
    end.
Proof.
  unfold CloseApproach__init__, mbind, Py_bind, call_cd_to_datetime,
    builtin_float.
  destruct (cd_to_datetime t); [reflexivity|].
  destruct (float_from_string dist); [|reflexivity].
  destruct (float_from_string vel); reflexivity.
Qed.

Lemma lookup_new (σ : store) (obj : object) :
  (σ ++ [obj]) !! length σ = Some obj.
Proof. rewrite lookup_app_r by lia. now rewrite Nat.sub_diag. Qed.

Lemma lookup_old (σ : store) (obj x : object) r :
  σ !! r = Some x -> (σ ++ [obj]) !! r = Some x.
Proof. intros Hr. now apply lookup_app_l_Some. Qed.

(** A construction that returns has added exactly one NEO, at the next
    address, without approaches. *)
Lemma NearEarthObject__init__Return des flag dia nm σ r σ' :
  NearEarthObject__init__ des flag dia nm σ = Return r σ' ->
  exists x,
    (if str_eq dia (py "") then Some nan else float_from_string dia) = Some x
    /\ r = length σ
    /\ σ' = σ ++ [NEO {| designation := des;
                         hazardous := str_eq (str_upper flag) (py "Y");
                         diameter := x;
                         name := if str_eq nm (py "") then None else Some nm;
                         approaches := [] |}].
Proof.
  rewrite NearEarthObject__init__eq.
  destruct (if str_eq dia (py "") then Some nan else float_from_string dia);
    [|discriminate].
  intros [= <- <-]. eauto.
Qed.

Lemma CloseApproach__init__Return t dist vel des σ r σ' :
  CloseApproach__init__ t dist vel des σ = Return r σ' ->
  exists tm d v,
    cd_to_datetime t = inr tm /\ float_from_string dist = Some d
    /\ float_from_string vel = Some v /\ r = length σ
    /\ σ' = σ ++ [Approach {| _designation := des; time := tm;
                              distance := d; velocity := v; neo := None |}].
Proof.
  rewrite CloseApproach__init__eq.
  destruct (cd_to_datetime t) as [e|tm]; [discriminate|].
  destruct (float_from_string dist) as [d|]; [|discriminate].
  destruct (float_from_string vel) as [v|]; [|discriminate].
  intros [= <- <-]. eauto 10.
Qed.
End Construction.

Lemma str_eq_refl (s : str) : str_eq s s = true.
Proof. now apply str_eq_true. Qed.

Section ConstructionClaims.
Context `{Unicode} `{Helpers}.

(** The object made by a call of [NearEarthObject] whose diameter text is
    accepted. *)
Lemma NearEarthObject_constructed des flag dia nm σ x :
  (if str_eq dia (py "") then Some nan else float_from_string dia) = Some x ->
  constructed (NearEarthObject__init__ des flag dia nm σ) =
    Some (NEO {| designation := des;
                 hazardous := str_eq (str_upper flag) (py "Y");
                 diameter := x;
                 name := if str_eq nm (py "") then None else Some nm;
                 approaches := [] |}).
Proof.
  intros Hx. rewrite NearEarthObject__init__eq, Hx. apply lookup_new.
Qed.

Lemma accepted_diameter dia :
  dia = py "" \/ is_Some (float_from_string dia) ->
  is_Some (if str_eq dia (py "") then Some nan else float_from_string dia).
Proof.
  intros [-> | Hx]; [now rewrite str_eq_refl|].
  now destruct (str_eq dia (py "")).
Qed.

(** C1: for every flag, the stored [hazardous] attribute is true exactly
    when the flag is [Y] in either case; every other string, the empty one
    included, gives false, and no flag makes construction raise: with a
    diameter text that is empty or accepted by [float], construction
    returns whatever the flag is. *)
Theorem hazardous_iff_flag_is_Y `{!UpperCaseOfY} des flag dia nm σ :
  dia = py "" \/ is_Some (float_from_string dia) ->
  exists o,
    constructed (NearEarthObject__init__ des flag dia nm σ) = Some (NEO o)
    /\ (hazardous o = true <-> flag = py "Y" \/ flag = py "y").
Proof.
  intros Hd. destruct (accepted_diameter dia Hd) as [x Hx].
  eexists. split; [exact (NearEarthObject_constructed _ _ _ _ _ _ Hx)|].
  cbn [hazardous]. rewrite str_eq_true. apply str_upper_Y.
Qed.

(** C2: an empty diameter text is stored as the NaN that stands for
    "unknown"; any other text is stored as the number [float] reads from
    it, bit for bit; the text [0] is stored as the number zero and not as
    a NaN. *)
Theorem diameter_is_nan_or_parsed des flag dia nm σ :
  (dia = py "" ->
   exists o,
     constructed (NearEarthObject__init__ des flag dia nm σ) = Some (NEO o)
     /\ diameter o = nan /\ isnan (diameter o) = true)
  /\ (dia <> py "" -> forall x, float_from_string dia = Some x ->
      exists o,
        constructed (NearEarthObject__init__ des flag dia nm σ) = Some (NEO o)
        /\ diameter o = x)
  /\ (exists o,
        constructed (NearEarthObject__init__ des flag (py "0") nm σ)
          = Some (NEO o)
        /\ diameter o = S754_zero false /\ isnan (diameter o) = false).
Proof.
  split; [|split].
  - intros ->. eexists. split; [|split].
    + apply NearEarthObject_constructed. now rewrite str_eq_refl.
    + reflexivity.
    + reflexivity.
  - intros Hne x Hx. eexists. split.
    + apply NearEarthObject_constructed.
      apply str_eq_false in Hne. rewrite Hne. exact Hx.
    + reflexivity.
  - eexists. split; [|split].
    + apply NearEarthObject_constructed. reflexivity.
    + reflexivity.
    + reflexivity.
Qed.

(** C3, as the code has it: a non-empty diameter text that [float]
    rejects makes the construction of an NEO raise the built-in
    [ValueError]; a distance or velocity text that [float] rejects makes
    the construction of an approach raise, with the error of the time
    parser if the time is malformed too and with [ValueError] otherwise.
    A call that raises returns no object. *)
Theorem rejected_number_raises_ValueError σ :
  (forall des flag dia nm,
     dia <> py "" -> float_from_string dia = None ->
     NearEarthObject__init__ des flag dia nm σ = Raise ValueError
     /\ constructed (NearEarthObject__init__ des flag dia nm σ) = None)
  /\ (forall t dist vel des,
        float_from_string dist = None \/ float_from_string vel = None ->
        CloseApproach__init__ t dist vel des σ =
          Raise (match cd_to_datetime t with
                 | inl e => e
                 | inr _ => ValueError
                 end)
        /\ constructed (CloseApproach__init__ t dist vel des σ) = None).
Proof.
  split.
  - intros des flag dia nm Hne Hx. rewrite NearEarthObject__init__eq.
    apply str_eq_false in Hne. now rewrite Hne, Hx.
  - intros t dist vel des Hx. rewrite CloseApproach__init__eq.
    destruct (cd_to_datetime t) as [e|tm]; [done|].
    destruct Hx as [-> | Hv]; [done|].
    rewrite Hv. now destruct (float_from_string dist).
Qed.

(** C4: with a diameter text that is empty or accepted by [float],
    construction returns for the empty name text and stores [None] for
    it, not an empty string; it returns for every other name text and
    stores that text as it is. *)
Theorem name_is_absent_or_verbatim des flag dia nm σ :
  dia = py "" \/ is_Some (float_from_string dia) ->
  (exists o,
     constructed (NearEarthObject__init__ des flag dia (py "") σ)
       = Some (NEO o)
     /\ name o = None /\ name o <> Some (py ""))
  /\ (nm <> py "" ->
      exists o,
        constructed (NearEarthObject__init__ des flag dia nm σ)
          = Some (NEO o)
        /\ name o = Some nm).
Proof.
  intros Hd. destruct (accepted_diameter dia Hd) as [x Hx]. split.
  - eexists. split; [exact (NearEarthObject_constructed _ _ _ _ _ _ Hx)|].
    cbn [name]. rewrite str_eq_refl. split; [reflexivity | discriminate].
  - intros Hne. eexists.
    split; [exact (NearEarthObject_constructed _ _ _ _ _ _ Hx)|].
    cbn [name]. apply str_eq_false in Hne. now rewrite Hne.
Qed.
End ConstructionClaims.

Section FreshObjects.
Context `{Unicode} `{Helpers}.

(** C8: right after construction an NEO has an empty sequence of
    approaches and an approach has no NEO.  A constructor adds its object
    at the next address and leaves every object of the store as it was, so
    it neither appends to the approaches of an NEO nor sets the [neo] of
    an approach; an NEO and an approach made one after the other are both
    still unlinked. *)
Theorem constructors_leave_objects_unlinked σ :
  (forall des flag dia nm r σ',
     NearEarthObject__init__ des flag dia nm σ = Return r σ' ->
     (exists o, σ' = σ ++ [NEO o] /\ r = length σ /\ approaches o = [])
     /\ (forall r0 obj, σ !! r0 = Some obj -> σ' !! r0 = Some obj))
  /\ (forall t dist vel des r σ',
        CloseApproach__init__ t dist vel des σ = Return r σ' ->
        (exists a, σ' = σ ++ [Approach a] /\ r = length σ /\ neo a = None)
        /\ (forall r0 obj, σ !! r0 = Some obj -> σ' !! r0 = Some obj))
  /\ (forall des flag dia nm t dist vel d n a σ',
        (n ← NearEarthObject__init__ des flag dia nm;
         a ← CloseApproach__init__ t dist vel d;
         mret (n, a)) σ = Return (n, a) σ' ->
        exists o ca,
          σ' !! n = Some (NEO o) /\ approaches o = []
          /\ σ' !! a = Some (Approach ca) /\ neo ca = None).
Proof.
  split; [|split].
  - intros des flag dia nm r σ' Hc.
    apply NearEarthObject__init__Return in Hc as (x & _ & -> & ->).
    split; [eauto|]. intros r0 obj. apply lookup_old.
  - intros t dist vel des r σ' Hc.
    apply CloseApproach__init__Return in Hc as (tm & d & v & _ & _ & _ & -> & ->).
    split; [eauto|]. intros r0 obj. apply lookup_old.
  - intros des flag dia nm t dist vel d n a σ'.
    unfold mbind, Py_bind, mret, Py_ret.
    destruct (NearEarthObject__init__ des flag dia nm σ) as [n1 σ1|e] eqn:Hn;
      [|discriminate].
    destruct (CloseApproach__init__ t dist vel d σ1) as [a1 σ2|e] eqn:Ha;
      [|discriminate].
    intros [= -> -> ->].
    apply NearEarthObject__init__Return in Hn as (x & _ & -> & ->).
    apply CloseApproach__init__Return in Ha as (tm & dd & v & _ & _ & _ & -> & ->).
    do 2 eexists. split; [|split; [|split]].
    + apply lookup_old, lookup_new.
    + reflexivity.
    + apply lookup_new.
    + reflexivity.
Qed.

(** C9: the designation is stored as it is given, whatever it is: with a
    diameter text that is empty or accepted by [float], construction
    returns for every designation, the empty one included, and a second
    construction with the same designation returns as well, at another
    address.  The constructor checks neither that a designation is
    non-empty nor that it is new. *)
Theorem designation_is_stored_verbatim des flag dia nm σ :
  dia = py "" \/ is_Some (float_from_string dia) ->
  (exists o,
     constructed (NearEarthObject__init__ des flag dia nm σ) = Some (NEO o)
     /\ designation o = des)
  /\ (exists o,
        constructed (NearEarthObject__init__ (py "") flag dia nm σ)
          = Some (NEO o)
        /\ designation o = py "")
  /\ (exists r1 r2 σ' o1 o2,
        (r1 ← NearEarthObject__init__ des flag dia nm;
         r2 ← NearEarthObject__init__ des flag dia nm;
         mret (r1, r2)) σ = Return (r1, r2) σ'
        /\ r1 <> r2
        /\ σ' !! r1 = Some (NEO o1) /\ designation o1 = des
        /\ σ' !! r2 = Some (NEO o2) /\ designation o2 = des).
Proof.
  intros Hd. destruct (accepted_diameter dia Hd) as [x Hx].
  split; [|split].
  - eexists. split; [exact (NearEarthObject_constructed _ _ _ _ _ _ Hx)|].
    reflexivity.
  - eexists. split; [exact (NearEarthObject_constructed _ _ _ _ _ _ Hx)|].
    reflexivity.
  - unfold mbind, Py_bind, mret, Py_ret.
    rewrite NearEarthObject__init__eq, Hx. cbv beta iota.
    rewrite NearEarthObject__init__eq, Hx.
    do 5 eexists. split; [reflexivity|]. split; [|split; [|split; [|split]]].
    + rewrite length_app. cbn. lia.
    + apply lookup_old, lookup_new.
    + reflexivity.
    + apply lookup_new.
    + reflexivity.
Qed.

(** C10: the non-empty diameter text [nan] is accepted, and the object
    made from it is the one made from the empty text: its diameter is a
    NaN, the same value as the "unknown" mark, which is not equal to
    itself nor to any number under the comparison of floats. *)
Theorem nan_text_is_stored_as_unknown des flag nm σ :
  py "nan" <> py ""
  /\ exists o,
       constructed (NearEarthObject__init__ des flag (py "nan") nm σ)
         = Some (NEO o)
       /\ constructed (NearEarthObject__init__ des flag (py "") nm σ)
            = Some (NEO o)
       /\ isnan (diameter o) = true
       /\ float_eq (diameter o) (diameter o) = false
       /\ (forall y, float_eq (diameter o) y = false).
Proof.
  split; [discriminate|].
  eexists. split; [|split; [|split; [|split]]].
  - apply NearEarthObject_constructed. reflexivity.
  - apply NearEarthObject_constructed. reflexivity.
  - reflexivity.
  - reflexivity.
  - intros y. apply float_eq_nan.
Qed.
End FreshObjects.

(** ** The stores a program reaches are well formed *)

Section Invariant.
Context `{Unicode} `{Helpers}.

Lemma link_Return a n σ σ' :
  link a n σ = Return tt σ' ->
  exists ca o,
    σ !! a = Some (Approach ca) /\ σ !! n = Some (NEO o) /\ a <> n
    /\ σ' = <[n := NEO (with_approach o a)]>
              (<[a := Approach (with_neo ca (Some n))]> σ).
Proof.
  unfold link, mbind, Py_bind, set_neo, append_approach.
  destruct (σ !! a) as [[o0|ca]|] eqn:Ha; try discriminate.
  destruct (decide (a = n)) as [<-|Hne].
  - rewrite list_lookup_insert_eq by (now apply lookup_lt_Some in Ha).
    discriminate.
  - rewrite list_lookup_insert_ne by done.
    destruct (σ !! n) as [[o|ca0]|] eqn:Hn; try discriminate.
    intros [= <-]. eauto 10.
Qed.

Lemma lookup_snoc_Some (σ : store) (x obj : object) r :
  (σ ++ [x]) !! r = Some obj -> σ !! r = Some obj \/ (r = length σ /\ obj = x).
Proof.
  intros Hr. apply lookup_app_Some in Hr as [Hr | [Hle Hr]]; [now left|].
  right. apply list_lookup_singleton_Some in Hr as [Hz ->].
  split; [lia | reflexivity].
Qed.

Lemma well_formed_empty : well_formed [].
Proof. split; intros *; rewrite lookup_nil; discriminate. Qed.

Lemma step_well_formed σ σ' : step σ σ' -> well_formed σ -> well_formed σ'.
Proof.
  intros Hstep [Hname Hneo].
  destruct Hstep as [des flag dia nm r σ σ' Hc | t dist vel des r σ σ' Hc
                    | a n σ σ' Hc].
  - apply NearEarthObject__init__Return in Hc as (x & _ & -> & ->). split.
    + intros r o Hr. apply lookup_snoc_Some in Hr as [Hr | [_ [= ->]]];
        [now apply (Hname r)|].
      cbn [name]. destruct (str_eq nm (py "")) eqn:Hnm; [discriminate|].
      apply str_eq_false in Hnm. now intros [= ->].
    + intros r a n Hr Hn. apply lookup_snoc_Some in Hr as [Hr | [_ [=]]].
      destruct (Hneo r a n Hr Hn) as [o Ho]. exists o. now apply lookup_old.
  - apply CloseApproach__init__Return in Hc
      as (tm & d & v & _ & _ & _ & -> & ->). split.
    + intros r o Hr. apply lookup_snoc_Some in Hr as [Hr | [_ [=]]].
      now apply (Hname r).
    + intros r a n Hr Hn.
      apply lookup_snoc_Some in Hr as [Hr | [_ [= ->]]]; [|discriminate].
      destruct (Hneo r a n Hr Hn) as [o Ho]. exists o. now apply lookup_old.
  - apply link_Return in Hc as (ca & o & Ha & Hn & Hne & ->). split.
    + intros r o' Hr.
      apply list_lookup_insert_Some in Hr as [(<- & [= <-] & _) | [Hrn Hr]].
      * cbn [with_approach name]. now apply (Hname n).
      * apply list_lookup_insert_Some in Hr as [(_ & [=] & _) | [_ Hr]].
        now apply (Hname r).
    + assert (Hlen : (n < length (<[a := Approach (with_neo ca (Some n))]> σ))%nat)
        by (rewrite length_insert; now apply lookup_lt_Some in Hn).
      intros r x m Hr Hm.
      apply list_lookup_insert_Some in Hr as [(_ & [=] & _) | [Hrn Hr]].
      apply list_lookup_insert_Some in Hr as [(<- & [= <-] & _) | [Hra Hr]].
      * cbn [with_neo neo] in Hm. injection Hm as <-.
        eexists. now apply list_lookup_insert_eq.
      * destruct (Hneo r x m Hr Hm) as [o' Ho'].
        destruct (decide (n = m)) as [<-|Hnm].
        -- eexists. now apply list_lookup_insert_eq.
        -- exists o'. rewrite list_lookup_insert_ne by done.
           rewrite list_lookup_insert_ne; [done|]. intros <-. congruence.
Qed.

Lemma reachable_well_formed σ : reachable σ -> well_formed σ.
Proof.
  unfold reachable. revert σ. apply (rtc_ind_r well_formed).
  - apply well_formed_empty.
  - intros σ1 σ2 _ Hstep IH. exact (step_well_formed _ _ Hstep IH).
Qed.
End Invariant.

(** ** Fixed-point text has its digits *)

Lemma uint_codes_digits d : forallb is_digit (uint_codes d) = true.
Proof. induction d; cbn; auto. Qed.

Lemma zeros_digits k : forallb is_digit (zeros k) = true.
Proof. induction k; cbn; auto. Qed.

Lemma forallb_take_drop {A} (f : A -> bool) k (l : list A) :
  forallb f l = true ->
  forallb f (take k l) = true /\ forallb f (drop k l) = true.
Proof.
  intros Hl. rewrite <- (take_drop k l), forallb_app in Hl.
  now apply andb_true_iff in Hl.
Qed.

Lemma take_digits_app ip c r :
  forallb is_digit ip = true -> is_digit c = false ->
  take_digits (ip ++ c :: r) = ((fun d => d - 48) <$> ip, c :: r).
Proof.
  intros Hip Hc. induction ip as [|d ip IH]; cbn.
  - now rewrite Hc.
  - cbn in Hip. apply andb_true_iff in Hip as [Hd Hip].
    now rewrite Hd, (IH Hip).
Qed.

(** The layout of [fixed_digits]: some digits, a point, [p] digits. *)
Lemma fixed_digits_shape n p :
  exists d ip frac,
    fixed_digits n (S p) = (d :: ip) ++ 46 :: frac
    /\ forallb is_digit (d :: ip) = true
    /\ forallb is_digit frac = true /\ length frac = S p.
Proof.
  unfold fixed_digits.
  set (ds := zeros (S (S p) - length (str_of_N n)) ++ str_of_N n).
  assert (Hlen : (S (S p) <= length ds)%nat).
  { unfold ds, zeros. rewrite length_app, repeat_length. lia. }
  assert (Hds : forallb is_digit ds = true).
  { unfold ds. rewrite forallb_app, zeros_digits. apply uint_codes_digits. }
  destruct (forallb_take_drop is_digit (length ds - S p) ds Hds) as [Ht Hd].
  destruct (take (length ds - S p) ds) as [|d ip] eqn:Htake.
  - apply (f_equal length) in Htake. rewrite length_take in Htake.
    cbn in Htake. lia.
  - exists d, ip, (drop (length ds - S p) ds).
    split; [reflexivity|]. split; [exact Ht|]. split; [exact Hd|].
    rewrite length_drop. lia.
Qed.

Lemma has_decimals_fixed_digits neg n p :
  has_decimals (S p) (sign_str neg ++ fixed_digits n (S p)) = true.
Proof.
  destruct (fixed_digits_shape n p) as (d & ip & frac & -> & Hip & Hfrac & Hlen).
  assert (Hbody :
    match sign_str neg ++ (d :: ip) ++ 46 :: frac with
    | c :: r => if c =? 45 then r else sign_str neg ++ (d :: ip) ++ 46 :: frac
    | [] => sign_str neg ++ (d :: ip) ++ 46 :: frac
    end = (d :: ip) ++ 46 :: frac).
  { destruct neg; [reflexivity|]. cbn. cbn in Hip.
    apply andb_true_iff in Hip as [Hd _].
    destruct (d =? 45) eqn:E; [|reflexivity].
    apply N.eqb_eq in E. subst d. discriminate. }
  unfold has_decimals. rewrite Hbody, take_digits_app by done.
  cbn. rewrite Hlen, Nat.eqb_refl. exact Hfrac.
Qed.

(** A finite number in fixed-point presentation with one digit or more
    after the point has exactly that many. *)
Lemma has_decimals_format_fixed p x :
  isfinite x = true -> has_decimals (S p) (format_fixed (S p) x) = true.
Proof.
  destruct x as [s|s| |s m e]; try discriminate; intros _.
  - apply has_decimals_fixed_digits.
  - unfold format_fixed. destruct (fraction m e) as [num den].
    apply has_decimals_fixed_digits.
Qed.

(** An infinity or a NaN has no digit in any presentation. *)
Lemma format_fixed_not_finite p x :
  isfinite x = false ->
  format_fixed p x = py "nan" \/ format_fixed p x = py "inf"
  \/ format_fixed p x = py "-inf".
Proof.
  destruct x as [s|[|]| |s m e]; try discriminate; intros _; cbn; auto.
Qed.

(** ** Methods *)

Section Methods.
Context `{Unicode} `{Helpers}.

Lemma again_pure {A} (c : Py A) σ v k :
  c σ = Return v σ -> again k c σ = Return v σ.
Proof.
  intros Hc. induction k as [|k IH]; [exact Hc|].
  cbn [again]. unfold mbind, Py_bind. now rewrite Hc.
Qed.

Lemma NearEarthObject_fullname_eq σ r o :
  σ !! r = Some (NEO o) -> name o <> Some [] ->
  NearEarthObject_fullname r σ =
    Return (match name o with
            | Some n => designation o ++ py " (" ++ n ++ py ")"
            | None => designation o
            end) σ.
Proof.
  intros Hr Hname. unfold NearEarthObject_fullname, mbind, Py_bind, self_neo.
  rewrite Hr. destruct (name o) as [[|c n]|]; [done | reflexivity..].
Qed.

(** C5: the full name of an NEO of a reachable store is its designation,
    followed by its name in brackets when it has one.  The call returns
    the store it was given, so that any number of calls give the same
    text and leave every attribute of every object as it was. *)
Theorem fullname_is_designation_and_name σ r o k :
  reachable σ -> σ !! r = Some (NEO o) ->
  again k (NearEarthObject_fullname r) σ =
    Return (match name o with
            | Some n => designation o ++ py " (" ++ n ++ py ")"
            | None => designation o
            end) σ.
Proof.
  intros Hreach Hr. apply again_pure, NearEarthObject_fullname_eq; [done|].
  destruct (reachable_well_formed σ Hreach) as [Hname _]. now apply (Hname r).
Qed.

Lemma CloseApproach__str__eq σ r a :
  σ !! r = Some (Approach a) ->
  CloseApproach__str__ r σ =
    Return (py "On " ++ datetime_to_str (time a) ++ py " " ++ _designation a
              ++ py " approaches Earth at a distance of "
              ++ float_repr (distance a)
              ++ py " au and a velocity of " ++ float_repr (velocity a)
              ++ py " km/s.") σ.
Proof.
  intros Hr.
  unfold CloseApproach__str__, CloseApproach_time_str, mbind, Py_bind,
    self_approach.
  rewrite Hr. cbv beta iota. now rewrite Hr.
Qed.

(** C6: the sentence of an approach is "On", the formatted time, the
    designation given at construction, and the distance and velocity as
    [str] writes a float.  Two approaches with the same time, distance,
    velocity and designation have the same sentence whatever their [neo]
    is, and linking an approach does not change its sentence. *)
Theorem approach_sentence_ignores_neo :
  (forall σ r a,
     σ !! r = Some (Approach a) ->
     CloseApproach__str__ r σ =
       Return (py "On " ++ datetime_to_str (time a) ++ py " "
                 ++ _designation a
                 ++ py " approaches Earth at a distance of "
                 ++ float_repr (distance a)
                 ++ py " au and a velocity of " ++ float_repr (velocity a)
                 ++ py " km/s.") σ)
  /\ (forall σ1 r1 a1 σ2 r2 a2,
        σ1 !! r1 = Some (Approach a1) -> σ2 !! r2 = Some (Approach a2) ->
        time a1 = time a2 -> distance a1 = distance a2 ->
        velocity a1 = velocity a2 -> _designation a1 = _designation a2 ->
        returned (CloseApproach__str__ r1 σ1)
          = returned (CloseApproach__str__ r2 σ2))
  /\ (forall σ a n σ',
        link a n σ = Return tt σ' ->
        is_Some (returned (CloseApproach__str__ a σ))
        /\ returned (CloseApproach__str__ a σ')
             = returned (CloseApproach__str__ a σ)).
Proof.
  split; [|split].
  - apply CloseApproach__str__eq.
  - intros σ1 r1 a1 σ2 r2 a2 H1 H2 Ht Hd Hv Hn.
    rewrite (CloseApproach__str__eq _ _ _ H1), (CloseApproach__str__eq _ _ _ H2).
    cbn [returned]. now rewrite Ht, Hd, Hv, Hn.
  - intros σ a n σ' Hl.
    apply link_Return in Hl as (ca & o & Ha & Hn & Hne & ->).
    assert (Ha' : <[n := NEO (with_approach o a)]>
                    (<[a := Approach (with_neo ca (Some n))]> σ) !! a
                  = Some (Approach (with_neo ca (Some n)))).
    { rewrite list_lookup_insert_ne by done.
      apply list_lookup_insert_eq. now apply lookup_lt_Some in Ha. }
    rewrite (CloseApproach__str__eq _ _ _ Ha), (CloseApproach__str__eq _ _ _ Ha').
    split; [now eexists | reflexivity].
Qed.

Lemma NearEarthObject__repr__eq σ r o :
  σ !! r = Some (NEO o) ->
  NearEarthObject__repr__ r σ = Return (NearEarthObject_repr_text o) σ.
Proof.
  intros Hr. unfold NearEarthObject__repr__, mbind, Py_bind, self_neo.
  now rewrite Hr.
Qed.

(** C7, as the code has it: the representation of an approach of a
    reachable store gives, in this order, the formatted time, the
    distance, the velocity and the NEO.  The NEO is the text [None] for an
    approach that is not linked and the representation of the linked NEO
    otherwise.  A finite distance or velocity is written with exactly two
    digits after the point; an infinite one or a NaN is written [inf],
    [-inf] or [nan], without digits. *)
Theorem approach_repr_fields σ r a :
  reachable σ -> σ !! r = Some (Approach a) ->
  exists neo_text,
    match neo a with
    | None => neo_text = py "None"
    | Some n =>
      exists o, σ !! n = Some (NEO o)
        /\ neo_text = NearEarthObject_repr_text o
        /\ NearEarthObject__repr__ n σ = Return neo_text σ
    end
    /\ CloseApproach__repr__ r σ =
         Return (py "CloseApproach(time=" ++ str_repr (datetime_to_str (time a))
                   ++ py ", distance=" ++ format_fixed 2 (distance a)
                   ++ py ", velocity=" ++ format_fixed 2 (velocity a)
                   ++ py ", neo=" ++ neo_text ++ py ")") σ
    /\ fixed_or_word 2 (distance a) /\ fixed_or_word 2 (velocity a).
Proof.
  intros Hreach Hr.
  destruct (reachable_well_formed σ Hreach) as [_ Hneo].
  assert (Hfmt : forall x, fixed_or_word 2 x).
  { intros x. unfold fixed_or_word. destruct (isfinite x) eqn:Hx.
    - now apply has_decimals_format_fixed.
    - now apply format_fixed_not_finite. }
  unfold CloseApproach__repr__, CloseApproach_time_str, mbind, Py_bind,
    self_approach.
  rewrite Hr. cbv beta iota. rewrite Hr. unfold mret, Py_ret, neo_repr.
  destruct (neo a) as [n|] eqn:Hn.
  - destruct (Hneo r a n Hr Hn) as [o Ho].
    exists (NearEarthObject_repr_text o).
    rewrite (NearEarthObject__repr__eq σ n o Ho). eauto 10.
  - exists (py "None"). auto.
Qed.
End Methods.

(** ** The claims on concrete inputs *)

Lemma linked_store_reachable : @reachable latin1 sample_helpers linked_store.
Proof.
  eapply rtc_l.
  { apply (@step_neo latin1 sample_helpers
             (py "433") (py "y") (py "16.84") (py "Eros") 0%nat [] [NEO (eros [])]).
    vm_compute. reflexivity. }
  eapply rtc_l.
  { apply (@step_approach latin1 sample_helpers
             (py "1900-Jan-01 00:00") (py "0.092") (py "13.67") (py "2015 AB")
             1%nat [NEO (eros [])]
             [NEO (eros []); Approach (approach_1900 float_0_092 float_13_67 None)]).
    vm_compute. reflexivity. }
  apply rtc_once.
  apply (@step_link latin1 sample_helpers 1%nat 0%nat).
  vm_compute. reflexivity.
Defined.

Lemma hazardous_iff_flag_is_Y_witness :
  (py "16.84" = py "" \/ is_Some (@float_from_string latin1 (py "16.84")))
  /\ exists o,
       constructed (@NearEarthObject__init__ latin1 sample_helpers
                      (py "433") (py "y") (py "16.84") (py "Eros") [])
         = Some (NEO o)
       /\ (hazardous o = true <-> py "y" = py "Y" \/ py "y" = py "y").
Proof.
  assert (Hd : py "16.84" = py "" \/ is_Some (@float_from_string latin1 (py "16.84"))).
  { right. exists float_16_84. vm_compute. reflexivity. }
  split; [exact Hd|].
  exact (@hazardous_iff_flag_is_Y latin1 sample_helpers latin1_UpperCaseOfY
           (py "433") (py "y") (py "16.84") (py "Eros") [] Hd).
Defined.

Lemma diameter_is_nan_or_parsed_witness :
  (exists o,
     constructed (@NearEarthObject__init__ latin1 sample_helpers
                    (py "433") (py "y") (py "") (py "Eros") [])
       = Some (NEO o)
     /\ diameter o = nan /\ isnan (diameter o) = true)
  /\ (exists o,
        constructed (@NearEarthObject__init__ latin1 sample_helpers
                       (py "433") (py "y") (py "16.84") (py "Eros") [])
          = Some (NEO o)
        /\ diameter o = float_16_84).
Proof.
  split.
  - apply (proj1 (@diameter_is_nan_or_parsed latin1 sample_helpers
                    (py "433") (py "y") (py "") (py "Eros") [])).
    reflexivity.
  - apply (proj1 (proj2 (@diameter_is_nan_or_parsed latin1 sample_helpers
                           (py "433") (py "y") (py "16.84") (py "Eros") []))).
    + discriminate.
    + vm_compute. reflexivity.
Defined.

(** C3 as stated fails: the diameter text [abc] makes construction raise
    the built-in [ValueError], which is not an [InvalidMeasurement]; the
    code defines no error class of its own. *)
Lemma rejected_diameter_is_not_InvalidMeasurement :
  @NearEarthObject__init__ latin1 sample_helpers
     (py "433") (py "y") (py "abc") (py "Eros") [] = Raise ValueError
  /\ @NearEarthObject__init__ latin1 sample_helpers
       (py "433") (py "y") (py "abc") (py "Eros") [] <> Raise InvalidMeasurement.
Proof. split; [vm_compute; reflexivity | discriminate]. Qed.

Lemma rejected_number_raises_ValueError_witness :
  (py "abc" <> py "" /\ @float_from_string latin1 (py "abc") = None)
  /\ @NearEarthObject__init__ latin1 sample_helpers
       (py "433") (py "y") (py "abc") (py "Eros") [] = Raise ValueError
  /\ @float_from_string latin1 (py "fast") = None
  /\ @CloseApproach__init__ latin1 sample_helpers
       (py "1900-Jan-01 00:00") (py "0.092") (py "fast") (py "2015 AB") []
     = Raise ValueError.
Proof.
  assert (Hne : py "abc" <> py "") by discriminate.
  assert (Hd : @float_from_string latin1 (py "abc") = None)
    by (vm_compute; reflexivity).
  assert (Hv : @float_from_string latin1 (py "fast") = None)
    by (vm_compute; reflexivity).
  split; [now split|]. split; [|split; [exact Hv|]].
  - exact (proj1 (proj1 (@rejected_number_raises_ValueError latin1 sample_helpers [])
                    (py "433") (py "y") (py "abc") (py "Eros") Hne Hd)).
  - exact (proj1 (proj2 (@rejected_number_raises_ValueError latin1 sample_helpers [])
                    (py "1900-Jan-01 00:00") (py "0.092") (py "fast") (py "2015 AB")
                    (or_intror Hv))).
Defined.

Lemma name_is_absent_or_verbatim_witness :
  (py "16.84" = py "" \/ is_Some (@float_from_string latin1 (py "16.84")))
  /\ (exists o,
        constructed (@NearEarthObject__init__ latin1 sample_helpers
                       (py "433") (py "y") (py "16.84") (py "") [])
          = Some (NEO o)
        /\ name o = None /\ name o <> Some (py ""))
  /\ py "Eros" <> py ""
  /\ (exists o,
        constructed (@NearEarthObject__init__ latin1 sample_helpers
                       (py "433") (py "y") (py "16.84") (py "Eros") [])
          = Some (NEO o)
        /\ name o = Some (py "Eros")).
Proof.
  assert (Hd : py "16.84" = py ""
               \/ is_Some (@float_from_string latin1 (py "16.84"))).
  { right. exists float_16_84. vm_compute. reflexivity. }
  assert (Hne : py "Eros" <> py "") by discriminate.
  split; [exact Hd|]. split; [|split; [exact Hne|]].
  - exact (proj1 (@name_is_absent_or_verbatim latin1 sample_helpers
                    (py "433") (py "y") (py "16.84") (py "Eros") [] Hd)).
  - exact (proj2 (@name_is_absent_or_verbatim latin1 sample_helpers
                    (py "433") (py "y") (py "16.84") (py "Eros") [] Hd) Hne).
Defined.

Lemma fullname_is_designation_and_name_witness :
  @reachable latin1 sample_helpers linked_store
  /\ linked_store !! 0%nat = Some (NEO (eros [1%nat]))
  /\ again 2 (NearEarthObject_fullname 0%nat) linked_store
     = Return (py "433" ++ py " (" ++ py "Eros" ++ py ")") linked_store.
Proof.
  split; [exact linked_store_reachable|]. split; [reflexivity|].
  exact (@fullname_is_designation_and_name latin1 sample_helpers
           linked_store 0%nat (eros [1%nat]) 2%nat
           linked_store_reachable eq_refl).
Defined.

Lemma approach_sentence_ignores_neo_witness :
  linked_store !! 1%nat
    = Some (Approach (approach_1900 float_0_092 float_13_67 (Some 0%nat)))
  /\ [Approach (approach_1900 float_0_092 float_13_67 None)] !! 0%nat
     = Some (Approach (approach_1900 float_0_092 float_13_67 None))
  /\ CloseApproach__str__ 1%nat linked_store
     = Return (py "On " ++ py "1900-01-01 00:00" ++ py " " ++ py "2015 AB"
                 ++ py " approaches Earth at a distance of " ++ py "0.092"
                 ++ py " au and a velocity of " ++ py "13.67" ++ py " km/s.")
         linked_store
  /\ returned (CloseApproach__str__ 1%nat linked_store)
     = returned (CloseApproach__str__ 0%nat
                   [Approach (approach_1900 float_0_092 float_13_67 None)]).
Proof.
  split; [reflexivity|]. split; [reflexivity|]. split.
  - exact (proj1 (@approach_sentence_ignores_neo sample_helpers)
             linked_store 1%nat
             (approach_1900 float_0_092 float_13_67 (Some 0%nat)) eq_refl).
  - exact (proj1 (proj2 (@approach_sentence_ignores_neo sample_helpers))
             linked_store 1%nat
             (approach_1900 float_0_092 float_13_67 (Some 0%nat))
             [Approach (approach_1900 float_0_092 float_13_67 None)] 0%nat
             (approach_1900 float_0_092 float_13_67 None)
             eq_refl eq_refl eq_refl eq_refl eq_refl eq_refl).
Defined.

(** C7 as stated fails: the distance text [nan] is accepted, and the
    representation of the approach made from it shows the distance as
    [nan], which has no digit after a point. *)
Lemma approach_repr_of_nan_distance :
  @CloseApproach__init__ latin1 sample_helpers
     (py "1900-Jan-01 00:00") (py "nan") (py "13.67") (py "2015 AB") []
    = Return 0%nat [Approach (approach_1900 nan float_13_67 None)]
  /\ @CloseApproach__repr__ latin1 sample_helpers 0%nat
       [Approach (approach_1900 nan float_13_67 None)]
     = Return (py "CloseApproach(time='1900-01-01 00:00', distance=nan, velocity=13.67, neo=None)")
         [Approach (approach_1900 nan float_13_67 None)]
  /\ format_fixed 2 (distance (approach_1900 nan float_13_67 None)) = py "nan"
  /\ has_decimals 2 (py "nan") = false.
Proof. repeat split; vm_compute; reflexivity. Qed.

Lemma approach_repr_fields_witness :
  @reachable latin1 sample_helpers linked_store
  /\ linked_store !! 1%nat
     = Some (Approach (approach_1900 float_0_092 float_13_67 (Some 0%nat)))
  /\ @CloseApproach__repr__ latin1 sample_helpers 1%nat linked_store
     = Return (py "CloseApproach(time='1900-01-01 00:00', distance=0.09, velocity=13.67, neo=NearEarthObject(designation='433', name='Eros', diameter=16.840, hazardous=True))")
         linked_store.
Proof.
  split; [exact linked_store_reachable|]. split; [reflexivity|].
  destruct (@approach_repr_fields latin1 sample_helpers linked_store 1%nat
              (approach_1900 float_0_092 float_13_67 (Some 0%nat))
              linked_store_reachable eq_refl)
    as (neo_text & (o & Ho & -> & _) & Hrepr & _).
  injection Ho as <-. exact Hrepr.
Defined.

Lemma constructors_leave_objects_unlinked_witness :
  @NearEarthObject__init__ latin1 sample_helpers
     (py "433") (py "y") (py "16.84") (py "Eros") []
    = Return 0%nat eros_store
  /\ (exists o, eros_store = [] ++ [NEO o] /\ approaches o = [])
  /\ @CloseApproach__init__ latin1 sample_helpers
       (py "1900-Jan-01 00:00") (py "0.092") (py "13.67") (py "2015 AB")
       eros_store
     = Return 1%nat unlinked_store
  /\ (forall r0 obj,
        eros_store !! r0 = Some obj -> unlinked_store !! r0 = Some obj).
Proof.
  assert (Hn : @NearEarthObject__init__ latin1 sample_helpers
                 (py "433") (py "y") (py "16.84") (py "Eros") []
               = Return 0%nat eros_store) by (vm_compute; reflexivity).
  assert (Ha : @CloseApproach__init__ latin1 sample_helpers
                 (py "1900-Jan-01 00:00") (py "0.092") (py "13.67")
                 (py "2015 AB") eros_store
               = Return 1%nat unlinked_store) by (vm_compute; reflexivity).
  split; [exact Hn|]. split; [|split; [exact Ha|]].
  - destruct (proj1 (proj1 (@constructors_leave_objects_unlinked
                              latin1 sample_helpers [])
                       _ _ _ _ _ _ Hn)) as (o & Ho & _ & Hl).
    now exists o.
  - exact (proj2 (proj1 (proj2 (@constructors_leave_objects_unlinked
                                  latin1 sample_helpers eros_store))
                    _ _ _ _ _ _ Ha)).
Defined.

Lemma designation_is_stored_verbatim_witness :
  (py "" = py "" \/ is_Some (@float_from_string latin1 (py "")))
  /\ exists o,
       constructed (@NearEarthObject__init__ latin1 sample_helpers
                      (py "") (py "y") (py "") (py "Eros") [])
         = Some (NEO o)
       /\ designation o = py "".
Proof.
  assert (Hd : py "" = py "" \/ is_Some (@float_from_string latin1 (py "")))
    by (left; reflexivity).
  split; [exact Hd|].
  exact (proj1 (@designation_is_stored_verbatim latin1 sample_helpers
                  (py "") (py "y") (py "") (py "Eros") [] Hd)).
Defined.

(** ** Scenarios of the specification, run on the model *)

(** Section 8: designation [433] and name [Eros] give the full name
    [433 (Eros)]; designation [2015 AB] without a name gives [2015 AB]. *)
Example fullname_of_eros :
  returned ((r ← @NearEarthObject__init__ latin1 sample_helpers
                   (py "433") (py "y") (py "16.84") (py "Eros");
             NearEarthObject_fullname r) [])
    = Some (py "433 (Eros)").
Proof. vm_compute. reflexivity. Qed.

Example fullname_without_name :
  returned ((r ← @NearEarthObject__init__ latin1 sample_helpers
                   (py "2015 AB") (py "N") (py "0.5") (py "");
             NearEarthObject_fullname r) [])
    = Some (py "2015 AB").
Proof. vm_compute. reflexivity. Qed.

(** Section 8: the texts [2015 AB], [Y], empty and empty give a hazardous
    NEO without a name whose diameter is a NaN, written [nan]. *)
Example unknown_diameter_scenario :
  @NearEarthObject__init__ latin1 sample_helpers
     (py "2015 AB") (py "Y") (py "") (py "") []
    = Return 0%nat
        [NEO {| designation := py "2015 AB"; hazardous := true;
                diameter := nan; name := None; approaches := [] |}]
  /\ returned ((r ← @NearEarthObject__init__ latin1 sample_helpers
                       (py "2015 AB") (py "Y") (py "") (py "");
                 NearEarthObject__str__ r) [])
     = Some (py "2015 AB has a diameter of nan km and is potentially hazardous.")
  /\ returned ((r ← @NearEarthObject__init__ latin1 sample_helpers
                       (py "2015 AB") (py "Y") (py "") (py "");
                 @NearEarthObject__repr__ latin1 sample_helpers r) [])
     = Some (py "NearEarthObject(designation='2015 AB', name=None, diameter=nan, hazardous=True)").
Proof. repeat split; vm_compute; reflexivity. Qed.

(** Section 8: the approach made from [1900-Jan-01 00:00], [0.092],
    [13.67] and [2015 AB]; its time is written without seconds. *)
Example approach_scenario :
  returned ((a ← @CloseApproach__init__ latin1 sample_helpers
                   (py "1900-Jan-01 00:00") (py "0.092") (py "13.67")
                   (py "2015 AB");
             CloseApproach_time_str a) [])
    = Some (py "1900-01-01 00:00")
  /\ returned ((a ← @CloseApproach__init__ latin1 sample_helpers
                       (py "1900-Jan-01 00:00") (py "0.092") (py "13.67")
                       (py "2015 AB");
                 CloseApproach__str__ a) [])
     = Some (py "On 1900-01-01 00:00 2015 AB approaches Earth at a distance of 0.092 au and a velocity of 13.67 km/s.").
Proof. split; vm_compute; reflexivity. Qed.

(** The program that makes an NEO and an approach and links them ends in
    [linked_store]. *)
Example linking_scenario :
  (n ← @NearEarthObject__init__ latin1 sample_helpers
         (py "433") (py "y") (py "16.84") (py "Eros");
   a ← @CloseApproach__init__ latin1 sample_helpers
         (py "1900-Jan-01 00:00") (py "0.092") (py "13.67") (py "2015 AB");
   link a n) []
    = Return tt linked_store.
Proof. vm_compute. reflexivity. Qed.

(** The runtime fragment on some inputs, as CPython 3.11 answers. *)
Example float_from_string_examples :
  List.map (@float_from_string latin1)
    [py "16.84"; py " 1_000.5e-3 "; py "-0"; py "1e400"; py "-Infinity";
     py "NaN"; py ""; py "abc"; py "1e"; py "."; py "1__0"; py "0x10"]
  = [Some float_16_84; Some (S754_finite false 4505851427184181 (-52));
     Some (S754_zero true); Some (S754_infinity false);
     Some (S754_infinity true); Some nan; None; None; None; None; None; None].
Proof. vm_compute. reflexivity. Qed.

Example format_fixed_examples :
  List.map (format_fixed 2)
    [float_16_84; float_0_092; S754_zero true; S754_finite false 1 (-3);
     S754_finite true 3 (-3); nan; S754_infinity true]
  = [py "16.84"; py "0.09"; py "-0.00"; py "0.12"; py "-0.38"; py "nan";
     py "-inf"].
Proof. vm_compute. reflexivity. Qed.

Example float_repr_examples :
  List.map float_repr
    [float_16_84; float_0_092; S754_zero false; S754_finite false 1 (-3);
     S754_finite false 1 (-1074); S754_finite false 5 53;
     S754_finite false 4503599627370497 (-2); nan; S754_infinity false]
  = [py "16.84"; py "0.092"; py "0.0"; py "0.125"; py "5e-324";
     py "4.503599627370496e+16"; py "1125899906842624.2"; py "nan"; py "inf"].
Proof. vm_compute. reflexivity. Qed.

Example str_repr_examples :
  List.map (@str_repr latin1)
    [py "2015 AB"; py "it's"; [9; 92; 233; 160]]
  = [[39; 50; 48; 49; 53; 32; 65; 66; 39];
     [34; 105; 116; 39; 115; 34];
     [39; 92; 116; 92; 92; 233; 92; 120; 97; 48; 39]].
Proof. vm_compute. reflexivity. Qed.

(** * More of the two classes *)

(** ** Each method as a function of what the store holds *)

Section MethodCases.
Context `{Unicode} `{Helpers}.

Lemma NearEarthObject_fullname_cases σ r :
  NearEarthObject_fullname r σ =
    match σ !! r with
    | Some (NEO o) => Return (NearEarthObject_fullname_text o) σ
    | _ => Raise AttributeError
    end.
Proof.
  unfold NearEarthObject_fullname, NearEarthObject_fullname_text, mbind,
    Py_bind, self_neo.
  destruct (σ !! r) as [[o|a]|]; try reflexivity.
  now destruct (name_truth (name o)).
Qed.

Lemma NearEarthObject__str__cases σ r :
  NearEarthObject__str__ r σ =
    match σ !! r with
    | Some (NEO o) => Return (NearEarthObject_str_text o) σ
    | _ => Raise AttributeError
    end.
Proof.
  unfold NearEarthObject__str__, NearEarthObject_str_text, mbind, Py_bind,
    self_neo.
  destruct (σ !! r) as [[o|a]|] eqn:Hr; try reflexivity.
  destruct (hazardous o); rewrite NearEarthObject_fullname_cases, Hr;
    reflexivity.
Qed.

Lemma NearEarthObject__repr__cases σ r :
  NearEarthObject__repr__ r σ =
    match σ !! r with
    | Some (NEO o) => Return (NearEarthObject_repr_text o) σ
    | _ => Raise AttributeError
    end.
Proof.
  unfold NearEarthObject__repr__, mbind, Py_bind, self_neo.
  now destruct (σ !! r) as [[o|a]|].
Qed.

Lemma CloseApproach_time_str_cases σ r :
  CloseApproach_time_str r σ =
    match σ !! r with
    | Some (Approach a) => Return (datetime_to_str (time a)) σ
    | _ => Raise AttributeError
    end.
Proof.
  unfold CloseApproach_time_str, mbind, Py_bind, self_approach.
  now destruct (σ !! r) as [[o|a]|].
Qed.

Lemma CloseApproach__str__cases σ r :
  CloseApproach__str__ r σ =
    match σ !! r with
    | Some (Approach a) => Return (CloseApproach_str_text a) σ
    | _ => Raise AttributeError
    end.
Proof.
  unfold CloseApproach__str__, CloseApproach_str_text, mbind, Py_bind,
    self_approach.
  destruct (σ !! r) as [[o|a]|] eqn:Hr; try reflexivity.
  now rewrite CloseApproach_time_str_cases, Hr.
Qed.

Lemma CloseApproach__repr__cases σ r :
  CloseApproach__repr__ r σ =
    match σ !! r with
    | Some (Approach a) =>
      match neo a with
      | None => Return (CloseApproach_repr_text a (py "None")) σ
      | Some n =>
        match σ !! n with
        | Some (NEO o) =>
          Return (CloseApproach_repr_text a (NearEarthObject_repr_text o)) σ
        | _ => Raise AttributeError
        end
      end
    | _ => Raise AttributeError
    end.
Proof.
  unfold CloseApproach__repr__, CloseApproach_repr_text, mbind, Py_bind,
    self_approach.
  destruct (σ !! r) as [[o|a]|] eqn:Hr; try reflexivity.
  rewrite CloseApproach_time_str_cases, Hr. unfold neo_repr.
  destruct (neo a) as [n|]; [|reflexivity].
  rewrite NearEarthObject__repr__cases.
  now destruct (σ !! n) as [[o|a']|].
Qed.
End MethodCases.

(** ** The sentence and the representation of an NEO *)

Section NeoTexts.
Context `{Unicode} `{Helpers}.

(** X1: the sentence of an NEO of a reachable store is its full name (the
    designation, with the name in brackets when there is one), its
    diameter as [str] writes a float, and one of two endings chosen by
    [hazardous].  Any number of calls give this text and leave the store
    as it was. *)
Theorem neo_sentence_is_fullname_diameter_hazard σ r o k :
  reachable σ -> σ !! r = Some (NEO o) ->
  again k (NearEarthObject__str__ r) σ =
    Return ((match name o with
             | Some n => designation o ++ py " (" ++ n ++ py ")"
             | None => designation o
             end)
              ++ py " has a diameter of " ++ float_repr (diameter o)
              ++ (if hazardous o
                  then py " km and is potentially hazardous."
                  else py " km and is not potentially hazardous.")) σ.
Proof.
  intros Hreach Hr. apply again_pure.
  rewrite NearEarthObject__str__cases, Hr.
  destruct (reachable_well_formed σ Hreach) as [Hname _].
  specialize (Hname r o Hr).
  unfold NearEarthObject_str_text, NearEarthObject_fullname_text.
  now destruct (name o) as [[|c n]|].
Qed.

(** X2: the representation of an NEO, in any store, gives the designation
    and the name as [repr] writes a string ([None] for no name), the
    diameter in the presentation [.3f] and [hazardous] as [True] or
    [False], in this order; the approaches are not part of it.  A finite
    diameter has exactly three digits after the point and an unknown one
    is written [nan].  Any number of calls give this text and leave the
    store as it was. *)
Theorem neo_repr_fields σ r o k :
  σ !! r = Some (NEO o) ->
  again k (NearEarthObject__repr__ r) σ =
    Return (py "NearEarthObject(designation=" ++ str_repr (designation o)
              ++ py ", name="
              ++ (match name o with
                  | Some n => str_repr n
                  | None => py "None"
                  end)
              ++ py ", diameter=" ++ format_fixed 3 (diameter o)
              ++ py ", hazardous="
              ++ (if hazardous o then py "True" else py "False")
              ++ py ")") σ
  /\ fixed_or_word 3 (diameter o)
  /\ (isnan (diameter o) = true -> format_fixed 3 (diameter o) = py "nan").
Proof.
  intros Hr. split; [|split].
  - apply again_pure. now rewrite NearEarthObject__repr__cases, Hr.
  - unfold fixed_or_word. destruct (isfinite (diameter o)) eqn:Hx.
    + now apply has_decimals_format_fixed.
    + now apply format_fixed_not_finite.
  - now destruct (diameter o).
Qed.

Lemma hazard_flag_test `{!UpperCaseOfY} flag :
  str_eq (str_upper flag) (py "Y")
    = str_eq flag (py "Y") || str_eq flag (py "y").
Proof.
  apply Bool.eq_iff_eq_true.
  rewrite orb_true_iff, !str_eq_true. apply str_upper_Y.
Qed.

(** X3: from the texts given to the constructor to the sentence: with a
    diameter text that is empty (read as NaN) or accepted by [float], the
    sentence of the new NEO is the designation, the name in brackets
    unless the name text is empty, the diameter, and the hazardous ending
    exactly when the flag is [Y] or [y]. *)
Theorem neo_sentence_from_texts `{!UpperCaseOfY} des flag dia nm σ x :
  (dia = py "" /\ x = nan) \/ (dia <> py "" /\ float_from_string dia = Some x) ->
  returned ((r ← NearEarthObject__init__ des flag dia nm;
             NearEarthObject__str__ r) σ)
    = Some ((if str_eq nm (py "") then des
             else des ++ py " (" ++ nm ++ py ")")
              ++ py " has a diameter of " ++ float_repr x
              ++ (if str_eq flag (py "Y") || str_eq flag (py "y")
                  then py " km and is potentially hazardous."
                  else py " km and is not potentially hazardous.")).
Proof.
  intros Hd.
  assert (Hx : (if str_eq dia (py "") then Some nan
                else float_from_string dia) = Some x).
  { destruct Hd as [[-> ->] | [Hne Hx]]; [now rewrite str_eq_refl|].
    apply str_eq_false in Hne. now rewrite Hne. }
  unfold mbind, Py_bind. rewrite NearEarthObject__init__eq, Hx.
  cbv beta iota. rewrite NearEarthObject__str__cases, lookup_new.
  cbn [returned]. f_equal.
  unfold NearEarthObject_str_text, NearEarthObject_fullname_text.
  cbn [name hazardous diameter designation]. rewrite hazard_flag_test.
  destruct (str_eq nm (py "")) eqn:Hnm; [reflexivity|].
  apply str_eq_false in Hnm. now destruct nm.
Qed.
End NeoTexts.

(** ** Construction of an approach *)

Lemma ascii_isspace_ascii c : ascii_isspace c = true -> is_ascii c = true.
Proof.
  unfold ascii_isspace, between, is_ascii. intros Hc.
  apply N.ltb_lt. apply orb_true_iff in Hc as [Hc | Hc].
  - apply andb_true_iff in Hc as [_ Hc]. apply N.leb_le in Hc. lia.
  - apply N.eqb_eq in Hc. lia.
Qed.

Lemma ascii_isspace_not_underscore c :
  ascii_isspace c = true -> (95 =? c) = false.
Proof.
  unfold ascii_isspace, between. intros Hc. apply N.eqb_neq. intros <-.
  discriminate.
Qed.

Lemma is_blank_ascii s : is_blank s = true -> forallb is_ascii s = true.
Proof.
  unfold is_blank. induction s as [|c s IH]; [reflexivity|]. cbn.
  intros Hs. apply andb_true_iff in Hs as [Hc Hs].
  now rewrite (ascii_isspace_ascii c Hc), (IH Hs).
Qed.

Lemma is_blank_no_underscore s :
  is_blank s = true -> existsb (N.eqb 95) s = false.
Proof.
  unfold is_blank. induction s as [|c s IH]; [reflexivity|].
  cbn [existsb forallb].
  intros Hs. apply andb_true_iff in Hs as [Hc Hs].
  now rewrite (ascii_isspace_not_underscore c Hc), (IH Hs).
Qed.

Lemma lstrip_blank s : is_blank s = true -> lstrip s = [].
Proof.
  unfold is_blank. induction s as [|c s IH]; [reflexivity|]. cbn.
  intros Hs. apply andb_true_iff in Hs as [Hc Hs]. now rewrite Hc, (IH Hs).
Qed.

Section ApproachConstruction.
Context `{Unicode} `{Helpers}.

(** [float] rejects a text of blanks. *)
Lemma float_from_string_blank s :
  is_blank s = true -> float_from_string s = None.
Proof.
  intros Hs. unfold float_from_string, transform_decimal_and_space_to_ascii,
    remove_underscores, strip.
  rewrite (is_blank_ascii s Hs), (is_blank_no_underscore s Hs).
  cbn [mbind option_bind]. now rewrite (lstrip_blank s Hs).
Qed.

(** X4: the construction of an approach returns exactly when the time
    text is accepted by the parser and both number texts by [float]; it
    then adds one approach that holds the parsed values, the designation
    as given and no NEO.  The time is parsed first: when the parser
    raises, its error is the one raised, whatever the other texts are. *)
Theorem approach_constructed_iff t dist vel des σ :
  (forall e, cd_to_datetime t = inl e ->
     CloseApproach__init__ t dist vel des σ = Raise e)
  /\ (forall r σ',
        CloseApproach__init__ t dist vel des σ = Return r σ' <->
        exists tm d v,
          cd_to_datetime t = inr tm /\ float_from_string dist = Some d
          /\ float_from_string vel = Some v /\ r = length σ
          /\ σ' = σ ++ [Approach {| _designation := des; time := tm;
                                    distance := d; velocity := v;
                                    neo := None |}]).
Proof.
  split.
  - intros e He. now rewrite CloseApproach__init__eq, He.
  - intros r σ'. split; [apply CloseApproach__init__Return|].
    intros (tm & d & v & Ht & Hd & Hv & -> & ->).
    now rewrite CloseApproach__init__eq, Ht, Hd, Hv.
Qed.

(** X5: a number text made of blanks only is rejected by [float].  A
    non-empty diameter text of blanks makes the construction of an NEO
    raise [ValueError]: only the empty text stands for an unknown
    diameter.  A distance or velocity text of blanks, the empty text
    included, makes the construction of an approach raise [ValueError]
    once the time is accepted: an approach has no unknown measurement. *)
Theorem blank_number_is_rejected s σ :
  is_blank s = true ->
  float_from_string s = None
  /\ (forall des flag nm,
        s <> py "" ->
        NearEarthObject__init__ des flag s nm σ = Raise ValueError)
  /\ (forall t other des tm,
        cd_to_datetime t = inr tm ->
        CloseApproach__init__ t s other des σ = Raise ValueError
        /\ CloseApproach__init__ t other s des σ = Raise ValueError).
Proof.
  intros Hs. pose proof (float_from_string_blank s Hs) as Hf.
  split; [exact Hf|]. split.
  - intros des flag nm Hne. rewrite NearEarthObject__init__eq.
    apply str_eq_false in Hne. now rewrite Hne, Hf.
  - intros t other des tm Ht. rewrite !CloseApproach__init__eq, Ht, Hf.
    split; [reflexivity|]. now destruct (float_from_string other).
Qed.

(** X6: from the texts given to the constructor to the texts of the new
    approach: the formatted time is the formatter applied to what the
    parser returned; the sentence and the representation show it with the
    designation as given and the two numbers; the representation ends
    with [neo=None]. *)
Theorem approach_texts_from_inputs t dist vel des σ tm d v :
  cd_to_datetime t = inr tm ->
  float_from_string dist = Some d -> float_from_string vel = Some v ->
  returned ((a ← CloseApproach__init__ t dist vel des;
             CloseApproach_time_str a) σ)
    = Some (datetime_to_str tm)
  /\ returned ((a ← CloseApproach__init__ t dist vel des;
                CloseApproach__str__ a) σ)
     = Some (py "On " ++ datetime_to_str tm ++ py " " ++ des
               ++ py " approaches Earth at a distance of " ++ float_repr d
               ++ py " au and a velocity of " ++ float_repr v
               ++ py " km/s.")
  /\ returned ((a ← CloseApproach__init__ t dist vel des;
                CloseApproach__repr__ a) σ)
     = Some (py "CloseApproach(time=" ++ str_repr (datetime_to_str tm)
               ++ py ", distance=" ++ format_fixed 2 d
               ++ py ", velocity=" ++ format_fixed 2 v
               ++ py ", neo=None)").
Proof.
  intros Ht Hd Hv. unfold mbind, Py_bind.
  rewrite CloseApproach__init__eq, Ht, Hd, Hv. cbv beta iota.
  rewrite CloseApproach_time_str_cases, CloseApproach__str__cases,
    CloseApproach__repr__cases, lookup_new.
  repeat split.
Qed.
End ApproachConstruction.

(** ** Methods, construction and linking *)

Section Frames.
Context `{Unicode} `{Helpers}.

(** What a linking leaves at each address. *)
Lemma link_lookup a n σ σ' :
  link a n σ = Return tt σ' ->
  exists ca o,
    σ !! a = Some (Approach ca) /\ σ !! n = Some (NEO o) /\ a <> n
    /\ σ' !! a = Some (Approach (with_neo ca (Some n)))
    /\ σ' !! n = Some (NEO (with_approach o a))
    /\ (forall r, r <> a -> r <> n -> σ' !! r = σ !! r).
Proof.
  intros Hl. apply link_Return in Hl as (ca & o & Ha & Hn & Hne & ->).
  exists ca, o. split; [done|]. split; [done|]. split; [done|].
  split; [|split].
  - rewrite list_lookup_insert_ne by done.
    apply list_lookup_insert_eq. now apply lookup_lt_Some in Ha.
  - apply list_lookup_insert_eq. rewrite length_insert.
    now apply lookup_lt_Some in Hn.
  - intros r Hra Hrn. now rewrite !list_lookup_insert_ne by done.
Qed.

(** X7: the three texts of an NEO do not read its approaches: a linking
    changes none of them, for the NEO that is linked and for every other
    reference. *)
Theorem linking_keeps_neo_texts a n σ σ' r :
  link a n σ = Return tt σ' ->
  returned (NearEarthObject_fullname r σ')
    = returned (NearEarthObject_fullname r σ)
  /\ returned (NearEarthObject__str__ r σ')
     = returned (NearEarthObject__str__ r σ)
  /\ returned (NearEarthObject__repr__ r σ')
     = returned (NearEarthObject__repr__ r σ)
  /\ is_Some (returned (NearEarthObject__repr__ n σ')).
Proof.
  intros Hl.
  destruct (link_lookup a n σ σ' Hl) as (ca & o & Ha & Hn & Hne & Ha' & Hn' & Hr).
  rewrite !NearEarthObject_fullname_cases, !NearEarthObject__str__cases,
    !NearEarthObject__repr__cases.
  destruct (decide (r = n)) as [->|Hrn].
  - rewrite Hn, Hn'. cbn [returned]. repeat split; now eexists.
  - rewrite Hn'. destruct (decide (r = a)) as [->|Hra].
    + rewrite Ha, Ha'. cbn [returned]. repeat split; now eexists.
    + rewrite (Hr r Hra Hrn).
      destruct (σ !! r) as [[o'|a']|]; cbn [returned];
        repeat split; now eexists.
Qed.

(** X8: after a linking the representation of the approach shows the
    representation of its NEO in place of [None]; that text is the one
    the NEO had before the linking, since it does not list approaches. *)
Theorem linked_approach_shows_its_neo a n σ σ' ca o :
  link a n σ = Return tt σ' ->
  σ !! a = Some (Approach ca) -> σ !! n = Some (NEO o) ->
  NearEarthObject__repr__ n σ = Return (NearEarthObject_repr_text o) σ
  /\ CloseApproach__repr__ a σ' =
       Return (py "CloseApproach(time=" ++ str_repr (datetime_to_str (time ca))
                 ++ py ", distance=" ++ format_fixed 2 (distance ca)
                 ++ py ", velocity=" ++ format_fixed 2 (velocity ca)
                 ++ py ", neo=" ++ NearEarthObject_repr_text o ++ py ")") σ'.
Proof.
  intros Hl Ha Hn.
  destruct (link_lookup a n σ σ' Hl)
    as (ca' & o' & Ha0 & Hn0 & Hne & Ha' & Hn' & _).
  rewrite Ha in Ha0. injection Ha0 as <-.
  rewrite Hn in Hn0. injection Hn0 as <-.
  split; [now rewrite NearEarthObject__repr__cases, Hn|].
  rewrite CloseApproach__repr__cases, Ha'. cbn [with_neo neo]. now rewrite Hn'.
Qed.

(** X9: a construction changes no text of the objects made before: what
    a method returned for a reference before the constructor call, it
    returns after it. *)
Theorem construction_keeps_texts σ σ' r :
  constructs σ σ' ->
  (forall v, NearEarthObject_fullname r σ = Return v σ ->
             NearEarthObject_fullname r σ' = Return v σ')
  /\ (forall v, NearEarthObject__str__ r σ = Return v σ ->
                NearEarthObject__str__ r σ' = Return v σ')
  /\ (forall v, NearEarthObject__repr__ r σ = Return v σ ->
                NearEarthObject__repr__ r σ' = Return v σ')
  /\ (forall v, CloseApproach_time_str r σ = Return v σ ->
                CloseApproach_time_str r σ' = Return v σ')
  /\ (forall v, CloseApproach__str__ r σ = Return v σ ->
                CloseApproach__str__ r σ' = Return v σ')
  /\ (forall v, CloseApproach__repr__ r σ = Return v σ ->
                CloseApproach__repr__ r σ' = Return v σ').
Proof.
  intros Hc.
  assert (Hext : exists obj, σ' = σ ++ [obj]).
  { destruct Hc as [(des & flag & dia & nm & r0 & Hc)
                   | (t & dist & vel & des & r0 & Hc)].
    - apply NearEarthObject__init__Return in Hc as (x & _ & _ & ->). eauto.
    - apply CloseApproach__init__Return in Hc
        as (tm & d & v & _ & _ & _ & _ & ->). eauto. }
  destruct Hext as [obj ->].
  rewrite !NearEarthObject_fullname_cases, !NearEarthObject__str__cases,
    !NearEarthObject__repr__cases, !CloseApproach_time_str_cases,
    !CloseApproach__str__cases, !CloseApproach__repr__cases.
  destruct (σ !! r) as [[o|a]|] eqn:Hr;
    [rewrite (lookup_old σ obj _ r Hr)..|];
    repeat split; intros v; try discriminate; try (now intros [= <-]).
  destruct (neo a) as [n|]; [|now intros [= <-]].
  destruct (σ !! n) as [[o|a']|] eqn:Hn; try discriminate.
  rewrite (lookup_old σ obj _ n Hn). now intros [= <-].
Qed.

(** X10: no method writes: whenever a method returns, the store it
    returns is the store it was given, in every store and for every
    reference. *)
Theorem methods_return_their_store σ r :
  (forall v σ', NearEarthObject_fullname r σ = Return v σ' -> σ' = σ)
  /\ (forall v σ', NearEarthObject__str__ r σ = Return v σ' -> σ' = σ)
  /\ (forall v σ', NearEarthObject__repr__ r σ = Return v σ' -> σ' = σ)
  /\ (forall v σ', CloseApproach_time_str r σ = Return v σ' -> σ' = σ)
  /\ (forall v σ', CloseApproach__str__ r σ = Return v σ' -> σ' = σ)
  /\ (forall v σ', CloseApproach__repr__ r σ = Return v σ' -> σ' = σ).
Proof.
  rewrite NearEarthObject_fullname_cases, NearEarthObject__str__cases,
    NearEarthObject__repr__cases, CloseApproach_time_str_cases,
    CloseApproach__str__cases, CloseApproach__repr__cases.
  destruct (σ !! r) as [[o|a]|];
    repeat split; intros v σ'; try discriminate; try (now intros [= _ <-]).
  destruct (neo a) as [n|]; [|now intros [= _ <-]].
  destruct (σ !! n) as [[o|a']|]; try discriminate. now intros [= _ <-].
Qed.
End Frames.

(** ** The further properties on concrete inputs *)

Lemma link_of_unlinked_store :
  @link sample_helpers 1%nat 0%nat unlinked_store = Return tt linked_store.
Proof. vm_compute. reflexivity. Defined.

Lemma neo_sentence_is_fullname_diameter_hazard_witness :
  @reachable latin1 sample_helpers linked_store
  /\ linked_store !! 0%nat = Some (NEO (eros [1%nat]))
  /\ again 1 (NearEarthObject__str__ 0%nat) linked_store
     = Return (py "433 (Eros) has a diameter of 16.84 km and is potentially hazardous.")
         linked_store.
Proof.
  split; [exact linked_store_reachable|]. split; [reflexivity|].
  exact (@neo_sentence_is_fullname_diameter_hazard latin1 sample_helpers
           linked_store 0%nat (eros [1%nat]) 1%nat
           linked_store_reachable eq_refl).
Defined.

Lemma neo_repr_fields_witness :
  linked_store !! 0%nat = Some (NEO (eros [1%nat]))
  /\ again 1 (@NearEarthObject__repr__ latin1 sample_helpers 0%nat) linked_store
     = Return (py "NearEarthObject(designation='433', name='Eros', diameter=16.840, hazardous=True)")
         linked_store.
Proof.
  split; [reflexivity|].
  exact (proj1 (@neo_repr_fields latin1 sample_helpers
                  linked_store 0%nat (eros [1%nat]) 1%nat eq_refl)).
Defined.

Lemma neo_sentence_from_texts_witness :
  ((py "" = py "" /\ nan = nan)
   \/ (py "" <> py "" /\ @float_from_string latin1 (py "") = Some nan))
  /\ returned ((r ← @NearEarthObject__init__ latin1 sample_helpers
                      (py "2015 AB") (py "Y") (py "") (py "");
                NearEarthObject__str__ r) [])
     = Some (py "2015 AB has a diameter of nan km and is potentially hazardous.").
Proof.
  assert (Hd : (py "" = py "" /\ nan = nan)
               \/ (py "" <> py ""
                   /\ @float_from_string latin1 (py "") = Some nan))
    by (left; split; reflexivity).
  split; [exact Hd|].
  exact (@neo_sentence_from_texts latin1 sample_helpers latin1_UpperCaseOfY
           (py "2015 AB") (py "Y") (py "") (py "") [] nan Hd).
Defined.

Lemma approach_constructed_iff_witness :
  @cd_to_datetime sample_helpers (py "yesterday") = inl ValueError
  /\ @CloseApproach__init__ latin1 sample_helpers
       (py "yesterday") (py "0.092") (py "13.67") (py "2015 AB") []
     = Raise ValueError
  /\ @CloseApproach__init__ latin1 sample_helpers
       (py "1900-Jan-01 00:00") (py "0.092") (py "13.67") (py "2015 AB")
       eros_store
     = Return 1%nat unlinked_store.
Proof.
  assert (He : @cd_to_datetime sample_helpers (py "yesterday") = inl ValueError)
    by (vm_compute; reflexivity).
  split; [exact He|]. split.
  - exact (proj1 (@approach_constructed_iff latin1 sample_helpers
                    (py "yesterday") (py "0.092") (py "13.67") (py "2015 AB") [])
             ValueError He).
  - apply (proj2 (@approach_constructed_iff latin1 sample_helpers
                    (py "1900-Jan-01 00:00") (py "0.092") (py "13.67")
                    (py "2015 AB") eros_store)).
    exists {| dt_year := 1900; dt_month := 1; dt_day := 1;
              dt_hour := 0; dt_minute := 0 |}, float_0_092, float_13_67.
    repeat split; vm_compute; reflexivity.
Defined.

Lemma blank_number_is_rejected_witness :
  is_blank (py "  ") = true
  /\ @float_from_string latin1 (py "  ") = None
  /\ @NearEarthObject__init__ latin1 sample_helpers
       (py "433") (py "y") (py "  ") (py "Eros") [] = Raise ValueError
  /\ @CloseApproach__init__ latin1 sample_helpers
       (py "1900-Jan-01 00:00") (py "0.092") (py "  ") (py "2015 AB") []
     = Raise ValueError.
Proof.
  assert (Hb : is_blank (py "  ") = true) by reflexivity.
  destruct (@blank_number_is_rejected latin1 sample_helpers (py "  ") [] Hb)
    as (Hf & Hn & Ha).
  split; [exact Hb|]. split; [exact Hf|]. split.
  - apply Hn. discriminate.
  - refine (proj2 (Ha (py "1900-Jan-01 00:00") (py "0.092") (py "2015 AB")
                      {| dt_year := 1900; dt_month := 1; dt_day := 1;
                         dt_hour := 0; dt_minute := 0 |} _)).
    vm_compute. reflexivity.
Defined.

Lemma approach_texts_from_inputs_witness :
  @cd_to_datetime sample_helpers (py "1900-Jan-01 00:00")
    = inr {| dt_year := 1900; dt_month := 1; dt_day := 1;
             dt_hour := 0; dt_minute := 0 |}
  /\ @float_from_string latin1 (py "0.092") = Some float_0_092
  /\ @float_from_string latin1 (py "13.67") = Some float_13_67
  /\ returned ((a ← @CloseApproach__init__ latin1 sample_helpers
                      (py "1900-Jan-01 00:00") (py "0.092") (py "13.67")
                      (py "2015 AB");
                @CloseApproach__repr__ latin1 sample_helpers a) [])
     = Some (py "CloseApproach(time='1900-01-01 00:00', distance=0.09, velocity=13.67, neo=None)").
Proof.
  assert (Ht : @cd_to_datetime sample_helpers (py "1900-Jan-01 00:00")
               = inr {| dt_year := 1900; dt_month := 1; dt_day := 1;
                        dt_hour := 0; dt_minute := 0 |})
    by (vm_compute; reflexivity).
  assert (Hd : @float_from_string latin1 (py "0.092") = Some float_0_092)
    by (vm_compute; reflexivity).
  assert (Hv : @float_from_string latin1 (py "13.67") = Some float_13_67)
    by (vm_compute; reflexivity).
  split; [exact Ht|]. split; [exact Hd|]. split; [exact Hv|].
  exact (proj2 (proj2 (@approach_texts_from_inputs latin1 sample_helpers
                         (py "1900-Jan-01 00:00") (py "0.092") (py "13.67")
                         (py "2015 AB") [] _ _ _ Ht Hd Hv))).
Defined.

Lemma linking_keeps_neo_texts_witness :
  @link sample_helpers 1%nat 0%nat unlinked_store = Return tt linked_store
  /\ returned (NearEarthObject__str__ 0%nat linked_store)
     = returned (NearEarthObject__str__ 0%nat unlinked_store).
Proof.
  split; [exact link_of_unlinked_store|].
  exact (proj1 (proj2 (@linking_keeps_neo_texts latin1 sample_helpers
                         1%nat 0%nat unlinked_store linked_store 0%nat
                         link_of_unlinked_store))).
Defined.

Lemma linked_approach_shows_its_neo_witness :
  @link sample_helpers 1%nat 0%nat unlinked_store = Return tt linked_store
  /\ unlinked_store !! 1%nat
     = Some (Approach (approach_1900 float_0_092 float_13_67 None))
  /\ unlinked_store !! 0%nat = Some (NEO (eros []))
  /\ @CloseApproach__repr__ latin1 sample_helpers 1%nat linked_store
     = Return (py "CloseApproach(time='1900-01-01 00:00', distance=0.09, velocity=13.67, neo=NearEarthObject(designation='433', name='Eros', diameter=16.840, hazardous=True))")
         linked_store.
Proof.
  split; [exact link_of_unlinked_store|]. split; [reflexivity|].
  split; [reflexivity|].
  exact (proj2 (@linked_approach_shows_its_neo latin1 sample_helpers
                  1%nat 0%nat unlinked_store linked_store
                  (approach_1900 float_0_092 float_13_67 None) (eros [])
                  link_of_unlinked_store eq_refl eq_refl)).
Defined.

Lemma construction_keeps_texts_witness :
  @constructs latin1 sample_helpers eros_store unlinked_store
  /\ NearEarthObject_fullname 0%nat eros_store
     = Return (py "433 (Eros)") eros_store
  /\ NearEarthObject_fullname 0%nat unlinked_store
     = Return (py "433 (Eros)") unlinked_store.
Proof.
  assert (Hc : @constructs latin1 sample_helpers eros_store unlinked_store).
  { right. exists (py "1900-Jan-01 00:00"), (py "0.092"), (py "13.67"),
      (py "2015 AB"), 1%nat. vm_compute. reflexivity. }
  assert (Hf : NearEarthObject_fullname 0%nat eros_store
               = Return (py "433 (Eros)") eros_store)
    by (vm_compute; reflexivity).
  split; [exact Hc|]. split; [exact Hf|].
  exact (proj1 (@construction_keeps_texts latin1 sample_helpers
                  eros_store unlinked_store 0%nat Hc) _ Hf).
Defined.

Lemma methods_return_their_store_witness :
  CloseApproach__str__ 1%nat linked_store
    = Return (py "On 1900-01-01 00:00 2015 AB approaches Earth at a distance of 0.092 au and a velocity of 13.67 km/s.")
        linked_store
  /\ linked_store = linked_store.
Proof.
  assert (Hs : CloseApproach__str__ 1%nat linked_store
               = Return (py "On 1900-01-01 00:00 2015 AB approaches Earth at a distance of 0.092 au and a velocity of 13.67 km/s.")
                   linked_store)
    by (vm_compute; reflexivity).
  split; [exact Hs|].
  exact (proj1 (proj2 (proj2 (proj2 (proj2
           (@methods_return_their_store latin1 sample_helpers
              linked_store 1%nat))))) _ _ Hs).
Defined.
